(** * DAM Precise Scoring total-score prediction: [src/app.service.ts]

    A shallow embedding of [AppService] and proofs about its three methods:
    [totalScoreByDamPreciseScoringFromTime] (the score deriver),
    [predictDamPreciseScoringTotalScore] (per-second predictions) and
    [countDamPreciseScoringTotalScorePrediction] (per-span counts).

    Numbers.  Every quantity of the service is a JavaScript [number] holding
    an integer far below 2^53, where [+], [-], [*], [%], [Math.floor(a / b)]
    and [Math.ceil(a / b)] are exact; such numbers are modelled by [Z].  The
    one place where a non-finite value can arise, [Math.ceil(timeLimit /
    timeSpan)] with [timeSpan = 0], is modelled by [Js.number]. *)

From Stdlib Require Import ZArith List Sorted Lia Bool String Ascii DecimalString.
Import ListNotations.
Local Open Scope Z_scope.

(** ** JavaScript primitives used by the service *)

Module Js.

(** The result of a division that may be non-finite. *)
Inductive number : Type :=
| Fin (z : Z)
| PosInf
| NegInf
| NaN.

(** [a % b]: the remainder takes the sign of the dividend. *)
Definition rem (a b : Z) : Z := Z.rem a b.

(** [Math.floor(a / b)] for a non-zero divisor. *)
Definition floor_div (a b : Z) : Z := a / b.

(** [Math.ceil(a / b)]; division by zero gives an infinity or NaN. *)
Definition ceil_div (a b : Z) : number :=
  if b =? 0 then
    if 0 <? a then PosInf else if a <? 0 then NegInf else NaN
  else Fin (- ((- a) / b)).

(** [i < n] for a finite [i]. *)
Definition lt (i : Z) (n : number) : bool :=
  match n with
  | Fin z => i <? z
  | PosInf => true
  | NegInf | NaN => false
  end.

(** [i === n - 1] for a finite [i]. *)
Definition is_pred (i : Z) (n : number) : bool :=
  match n with
  | Fin z => i =? z - 1
  | _ => false
  end.

(** Truthiness of a finite number. *)
Definition truthy (z : Z) : bool := negb (z =? 0).

(** [z.toString()] of an integer. *)
Definition toString (z : Z) : string := NilZero.string_of_int (Z.to_int z).

Fixpoint repeat_char (c : ascii) (n : nat) : string :=
  match n with
  | O => EmptyString
  | S n' => String c (repeat_char c n')
  end.

(** [s.padStart(n, c)] for a one-character pad. *)
Definition padStart (s : string) (n : nat) (c : ascii) : string :=
  append (repeat_char c (n - String.length s)) s.

End Js.

(** ** The part of dayjs the service uses

    An instant is its [valueOf()], the milliseconds since the epoch.
    [toISOString()] renders an instant injectively; the records below keep
    the instant that is rendered. *)

Module Dayjs.

Definition t : Type := Z.

Inductive unit_ : Type := second | hour.

Definition step (u : unit_) : Z :=
  match u with
  | second => 1000
  | hour => 3600000
  end.

Definition add (d : t) (n : Z) (u : unit_) : t := d + n * step u.

Definition valueOf (d : t) : Z := d.

End Dayjs.

(** ** Data transfer objects

    The score type of [types/dam-precise-scoring-total-score-type] and the
    two objects of [app.dto], with the members the service gives them. *)

Inductive DamPreciseScoringTotalScoreType : Type :=
| Normal
| Quadruple
| Hundred.

Definition DamPreciseScoringTotalScoreType_eqb
  (a b : DamPreciseScoringTotalScoreType) : bool :=
  match a, b with
  | Normal, Normal | Quadruple, Quadruple | Hundred, Hundred => true
  | _, _ => false
  end.

Record DamPreciseScoringTotalScorePrediction : Type := mkPrediction {
  time : Dayjs.t;
  scoreInteger : Z;
  scoreString : string;
  scoreType : DamPreciseScoringTotalScoreType
}.

Record Counts : Type := mkCounts {
  hundredCount : Z;
  quadrupleCount : Z
}.

Record DamPreciseScoringTotalScorePredictionCount : Type := mkCount {
  startTime : Dayjs.t;
  endTime : Dayjs.t;
  utc : Counts;
  jst : Counts
}.

(** Modelled from the spec: what [rand_r] returns, the drawn value and the
    generator's next state (section 4.1); the service reads [random] only. *)
Record RandR : Type := mkRandR {
  random : Z;
  next : Z
}.

(** ** Loops *)

(** [n] iterations of [for (let i = i0; ...; i++) s = body(i, s)]. *)
Fixpoint iterate {St : Type} (n : nat) (i : Z) (body : Z -> St -> St) (s : St) : St :=
  match n with
  | O => s
  | S n' => iterate n' (i + 1) body (body i s)
  end.

(** [for (let i = 0; i < bound; i++)] with a finite integer [bound]. *)
Definition for_lt {St : Type} (bound : Z) (body : Z -> St -> St) (s : St) : St :=
  iterate (Z.to_nat bound) 0 body s.

(** [for (let i = i0; i < bound; i++)] where [bound] may be non-finite: the
    loop is run with [fuel], and [None] means the fuel ran out. *)
Fixpoint for_number {St : Type} (fuel : nat) (i : Z) (bound : Js.number)
  (body : Z -> St -> St) (s : St) : option St :=
  match fuel with
  | O => None
  | S fuel' =>
      if Js.lt i bound then for_number fuel' (i + 1) bound body (body i s)
      else Some s
  end.

(** An omitted (undefined) argument takes the parameter's default. *)
Definition default {A : Type} (d : A) (arg : option A) : A :=
  match arg with
  | Some a => a
  | None => d
  end.

(** ** AppService *)

Module AppService.

Definition damPreciseScoringTotalScoreRandomizeThreshold : Z := 99000.
Definition damPreciseScoringTotalScore100PointsThreshold : Z := 99990.
Definition damPreciseScoringTotalScore100PointsProbability : Z := 500.

Section WithGenerator.

(** [rand_r] is imported from [utilities/rand-r]; the service is
    parametric in it. *)
Variable rand_r : Z -> RandR.

(** [const randomValue = rand_r(time).random + time] *)
Definition randomValue (time : Z) : Z := random (rand_r time) + time.

Definition totalScoreByDamPreciseScoringFromTime
  (time : Z) (rawScore : option Z) : Z :=
  let rawScore := default 99999 rawScore in
  let result := rawScore in
  if damPreciseScoringTotalScoreRandomizeThreshold <? result then
    let randomValue := randomValue time in
    let result :=
      Js.rem randomValue (rawScore - damPreciseScoringTotalScoreRandomizeThreshold)
      + damPreciseScoringTotalScoreRandomizeThreshold in
    if damPreciseScoringTotalScore100PointsThreshold <? result then
      let judgement := Js.rem randomValue 1000 in
      if judgement <? damPreciseScoringTotalScore100PointsProbability
      then 100000
      else result
    else result
  else result.

(** The classification written inline in both engines: [=== 100000],
    else [threshold < score && score !== 100000], else Normal. *)
Definition classify (score : Z) : DamPreciseScoringTotalScoreType :=
  if score =? 100000 then Hundred
  else if (damPreciseScoringTotalScore100PointsThreshold <? score)
          && negb (score =? 100000) then Quadruple
  else Normal.

(** [Math.floor(d.valueOf() / 1000)] *)
Definition unixtime_of (d : Dayjs.t) : Z :=
  Js.floor_div (Dayjs.valueOf d) 1000.

(** One iteration of the loop of [predictDamPreciseScoringTotalScore]. *)
Definition predict_body
  (startTime : Dayjs.t) (isJst includeNormal includeQuadruple include100 : bool)
  (i : Z) (result : list DamPreciseScoringTotalScorePrediction)
  : list DamPreciseScoringTotalScorePrediction :=
  let time := Dayjs.add startTime i Dayjs.second in
  let unixtime :=
    if isJst then unixtime_of (Dayjs.add time 9 Dayjs.hour)
    else unixtime_of time in
  let score := totalScoreByDamPreciseScoringFromTime unixtime None in
  let scoreInteger := Js.floor_div score 1000 in
  let scoreFractional := Js.rem score 1000 in
  let scoreString :=
    append (Js.toString scoreInteger)
      (append "." (Js.padStart (Js.toString scoreFractional) 3 "0")) in
  let scoreType := classify score in
  if (include100 && DamPreciseScoringTotalScoreType_eqb scoreType Hundred)
     || (includeQuadruple && DamPreciseScoringTotalScoreType_eqb scoreType Quadruple)
     || (includeNormal && DamPreciseScoringTotalScoreType_eqb scoreType Normal)
  then result ++ [mkPrediction time score scoreString scoreType]
  else result.

Definition predictDamPreciseScoringTotalScore
  (startTime : Dayjs.t) (timeLimit : Z)
  (isJst includeNormal includeQuadruple include100 : option bool)
  : list DamPreciseScoringTotalScorePrediction :=
  let isJst := default true isJst in
  let includeNormal := default true includeNormal in
  let includeQuadruple := default true includeQuadruple in
  let include100 := default true include100 in
  for_lt timeLimit
    (predict_body startTime isJst includeNormal includeQuadruple include100) [].

(** The four counters of one span, in the order the code declares them. *)
Record Tally : Type := mkTally {
  hundredCountUtc : Z;
  quadrupleCountUtc : Z;
  hundredCountJst : Z;
  quadrupleCountJst : Z
}.

(** One iteration of the inner loop (over the seconds of a span). *)
Definition count_second (localStartTime : Dayjs.t) (j : Z) (c : Tally) : Tally :=
  let timeUtc := Dayjs.add localStartTime j Dayjs.second in
  let unixtimeUtc := unixtime_of timeUtc in
  let scoreUtc := totalScoreByDamPreciseScoringFromTime unixtimeUtc None in
  let c :=
    if scoreUtc =? 100000 then
      mkTally (hundredCountUtc c + 1) (quadrupleCountUtc c)
              (hundredCountJst c) (quadrupleCountJst c)
    else if (damPreciseScoringTotalScore100PointsThreshold <? scoreUtc)
            && negb (scoreUtc =? 100000) then
      mkTally (hundredCountUtc c) (quadrupleCountUtc c + 1)
              (hundredCountJst c) (quadrupleCountJst c)
    else c in
  let unixtimeJst := unixtime_of (Dayjs.add timeUtc 9 Dayjs.hour) in
  let scoreJst := totalScoreByDamPreciseScoringFromTime unixtimeJst None in
  if scoreJst =? 100000 then
    mkTally (hundredCountUtc c) (quadrupleCountUtc c)
            (hundredCountJst c + 1) (quadrupleCountJst c)
  else if (damPreciseScoringTotalScore100PointsThreshold <? scoreJst)
          && negb (scoreJst =? 100000) then
    mkTally (hundredCountUtc c) (quadrupleCountUtc c)
            (hundredCountJst c) (quadrupleCountJst c + 1)
  else c.

(** [localTimeSpan] of span [i]. *)
Definition localTimeSpan (timeSpans : Js.number) (timeSpan timeLimit i : Z) : Z :=
  if Js.is_pred i timeSpans && Js.truthy (Js.rem timeLimit timeSpan)
  then Js.rem timeLimit timeSpan
  else timeSpan.

(** One iteration of the outer loop (over the spans). *)
Definition count_body
  (startTime : Dayjs.t) (timeSpans : Js.number) (timeSpan timeLimit : Z)
  (i : Z) (result : list DamPreciseScoringTotalScorePredictionCount)
  : list DamPreciseScoringTotalScorePredictionCount :=
  let localStartTime := Dayjs.add startTime (i * timeSpan) Dayjs.second in
  let localTimeSpan := localTimeSpan timeSpans timeSpan timeLimit i in
  let c := for_lt localTimeSpan (count_second localStartTime) (mkTally 0 0 0 0) in
  result ++
    [mkCount localStartTime
             (Dayjs.add localStartTime localTimeSpan Dayjs.second)
             (mkCounts (hundredCountUtc c) (quadrupleCountUtc c))
             (mkCounts (hundredCountJst c) (quadrupleCountJst c))].

(** The outer loop's bound can be [Infinity], so the method is run with
    [fuel]; [None] means it had not returned when the fuel ran out. *)
Definition countDamPreciseScoringTotalScorePrediction
  (fuel : nat) (startTime : Dayjs.t) (timeSpan timeLimit : Z)
  : option (list DamPreciseScoringTotalScorePredictionCount) :=
  let timeSpans := Js.ceil_div timeLimit timeSpan in
  for_number fuel 0 timeSpans
    (count_body startTime timeSpans timeSpan timeLimit) [].

End WithGenerator.

End AppService.

(** ** A concrete generator *)

(** Modelled from the spec: the generator of [utilities/rand-r], which
    section 4.1 describes as a C-library linear congruential generator: the
    state is initialised from the seed, one step is taken with 32-bit
    wrap-around, and the drawn value and the next state are returned.  The
    spec gives no constants; this instance takes the sample constants of
    the C standard.  It serves to run the service on concrete inputs, and
    nothing proved for every generator depends on it. *)
Definition reference_rand_r (seed : Z) : RandR :=
  let next := (seed * 1103515245 + 12345) mod 2 ^ 32 in
  mkRandR ((next / 65536) mod 32768) next.

(** ** Vocabulary of the statements *)

Import AppService.

(** The sum of the spec's section 4.2, step 2, which wraps modulo the
    generator's width of 32 bits; compared below with [randomValue]. *)
Definition wrapping_randomValue (rand_r : Z -> RandR) (unixSeconds : Z) : Z :=
  (random (rand_r unixSeconds) + unixSeconds) mod 2 ^ 32.

(** A generator whose drawn value is an unsigned 32-bit integer. *)
Definition unsigned32 (rand_r : Z -> RandR) : Prop :=
  forall seed, 0 <= random (rand_r seed) < 2 ^ 32.

(** The indices [i, i + 1, ..., i + n - 1] visited by [iterate n i]. *)
Fixpoint zrange (i : Z) (n : nat) : list Z :=
  match n with
  | O => []
  | S n' => i :: zrange (i + 1) n'
  end.

(** The include-flag that governs a score type. *)
Definition included (includeNormal includeQuadruple include100 : bool)
  (ty : DamPreciseScoringTotalScoreType) : bool :=
  match ty with
  | Normal => includeNormal
  | Quadruple => includeQuadruple
  | Hundred => include100
  end.

(** The seed of second [i] of a prediction. *)
Definition seed_of_second (startTime : Dayjs.t) (isJst : bool) (i : Z) : Z :=
  let time := Dayjs.add startTime i Dayjs.second in
  if isJst then unixtime_of (Dayjs.add time 9 Dayjs.hour) else unixtime_of time.

(** What a record pushed at second [i] of a prediction looks like. *)
Definition pushed_at (rand_r : Z -> RandR) (startTime : Dayjs.t)
  (isJst includeNormal includeQuadruple include100 : bool)
  (i : Z) (r : DamPreciseScoringTotalScorePrediction) : Prop :=
  time r = startTime + 1000 * i /\
  scoreInteger r =
    totalScoreByDamPreciseScoringFromTime rand_r (seed_of_second startTime isJst i) None /\
  scoreType r = classify (scoreInteger r) /\
  included includeNormal includeQuadruple include100 (scoreType r) = true.

(** 1 when the score derived for second [k] after [start] has type [ty]. *)
Definition hit (rand_r : Z -> RandR) (seed_of : Dayjs.t -> Z)
  (ty : DamPreciseScoringTotalScoreType) (start : Dayjs.t) (k : Z) : Z :=
  if DamPreciseScoringTotalScoreType_eqb
       (classify (totalScoreByDamPreciseScoringFromTime rand_r
                    (seed_of (Dayjs.add start k Dayjs.second)) None)) ty
  then 1 else 0.

Definition seed_utc (d : Dayjs.t) : Z := unixtime_of d.
Definition seed_jst (d : Dayjs.t) : Z := unixtime_of (Dayjs.add d 9 Dayjs.hour).

(** [g i + g (i + 1) + ... + g (i + n - 1)] *)
Fixpoint zsum (g : Z -> Z) (i : Z) (n : nat) : Z :=
  match n with
  | O => 0
  | S n' => g i + zsum g (i + 1) n'
  end.

Definition sum_list (l : list Z) : Z := fold_right Z.add 0 l.

(** The tally of the whole window in a single pass: every second of
    [start, start + timeLimit) is derived under [seed_of] and classified. *)
Definition tally_pass (rand_r : Z -> RandR) (seed_of : Dayjs.t -> Z)
  (start : Dayjs.t) (timeLimit : Z) : Counts :=
  for_lt timeLimit
    (fun k c =>
       match classify (totalScoreByDamPreciseScoringFromTime rand_r
                         (seed_of (Dayjs.add start k Dayjs.second)) None) with
       | Hundred => mkCounts (hundredCount c + 1) (quadrupleCount c)
       | Quadruple => mkCounts (hundredCount c) (quadrupleCount c + 1)
       | Normal => c
       end)
    (mkCounts 0 0).

(** Span [i] of the window as the outer loop pushes it. *)
Definition span_record (rand_r : Z -> RandR) (start : Dayjs.t)
  (timeSpans : Js.number) (timeSpan timeLimit i : Z)
  : DamPreciseScoringTotalScorePredictionCount :=
  let len := localTimeSpan timeSpans timeSpan timeLimit i in
  let from := i * timeSpan in
  mkCount (Dayjs.add start from Dayjs.second)
          (Dayjs.add (Dayjs.add start from Dayjs.second) len Dayjs.second)
          (mkCounts (zsum (hit rand_r seed_utc Hundred start) from (Z.to_nat len))
                    (zsum (hit rand_r seed_utc Quadruple start) from (Z.to_nat len)))
          (mkCounts (zsum (hit rand_r seed_jst Hundred start) from (Z.to_nat len))
                    (zsum (hit rand_r seed_jst Quadruple start) from (Z.to_nat len))).

(** The character of a decimal digit. *)
Definition digit (d : Z) : ascii := ascii_of_nat (48 + Z.to_nat d).

(** A prediction whose [time] is moved by [ms] milliseconds. *)
Definition shift_time (ms : Z) (r : DamPreciseScoringTotalScorePrediction)
  : DamPreciseScoringTotalScorePrediction :=
  mkPrediction (time r + ms) (scoreInteger r) (scoreString r) (scoreType r).

(** Whether [padStart(3, "0")] of the decimal of [f] is the three digits of [f]. *)
Definition pads_to_digits (f : Z) : bool :=
  String.eqb (Js.padStart (Js.toString f) 3 "0")
    (String (digit (f / 100)) (String (digit (f / 10 mod 10))
       (String (digit (f mod 10)) EmptyString))).

(** * Properties *)

Lemma reference_rand_r_unsigned32 : unsigned32 reference_rand_r.
Proof.
  intro seed. unfold reference_rand_r. cbn [random].
  assert (H : 0 <= ((seed * 1103515245 + 12345) mod 2 ^ 32 / 65536) mod 32768 < 32768)
    by (apply Z.mod_pos_bound; lia).
  change (2 ^ 32) with 4294967296 in *. lia.
Qed.

(** ** The score deriver *)

Section Deriver.

Variable rand_r : Z -> RandR.
Hypothesis rand_r_unsigned32 : unsigned32 rand_r.

Lemma randomValue_nonneg time : 0 <= time -> 0 <= randomValue rand_r time.
Proof.
  intro Ht. unfold randomValue. pose proof (rand_r_unsigned32 time). lia.
Qed.

(** Above the randomize threshold the deriver is the remainder plus the
    threshold, unless the 100-point override applies. *)
Lemma deriver_above time rawScore :
  99000 < rawScore ->
  totalScoreByDamPreciseScoringFromTime rand_r time (Some rawScore) =
    let r := Z.rem (randomValue rand_r time) (rawScore - 99000) + 99000 in
    if (99990 <? r) && (Z.rem (randomValue rand_r time) 1000 <? 500)
    then 100000 else r.
Proof.
  intro Hraw.
  unfold totalScoreByDamPreciseScoringFromTime, default, Js.rem,
    damPreciseScoringTotalScoreRandomizeThreshold,
    damPreciseScoringTotalScore100PointsThreshold,
    damPreciseScoringTotalScore100PointsProbability.
  cbv zeta.
  replace (99000 <? rawScore) with true by (symmetry; apply Z.ltb_lt; exact Hraw).
  destruct (99990 <? _); [destruct (_ <? 500)|]; reflexivity.
Qed.

(** C1: for a non-negative seed and a raw score above 99000 the derived
    score lies in [99000, rawScore - 1] or is 100000. *)
Theorem deriver_range time rawScore :
  0 <= time ->
  99000 < rawScore ->
  let score := totalScoreByDamPreciseScoringFromTime rand_r time (Some rawScore) in
  99000 <= score <= rawScore - 1 \/ score = 100000.
Proof.
  intros Ht Hraw. cbv zeta. rewrite (deriver_above time rawScore Hraw). cbv zeta.
  pose proof (randomValue_nonneg time Ht) as Hrv.
  rewrite (Z.rem_mod_nonneg _ (rawScore - 99000)) by lia.
  pose proof (Z.mod_pos_bound (randomValue rand_r time) (rawScore - 99000)) as Hb.
  destruct ((99990 <? _) && _); [right; reflexivity | left; lia].
Qed.

(** C2 (amended): the sum is exact, it is at least the seed and less than
    the seed plus 2^32, and it agrees with the 32-bit wrapping sum exactly
    when it stays below 2^32. *)
Theorem randomValue_exact time :
  0 <= time ->
  randomValue rand_r time = random (rand_r time) + time /\
  time <= randomValue rand_r time < time + 2 ^ 32 /\
  (randomValue rand_r time = wrapping_randomValue rand_r time <->
   random (rand_r time) + time < 2 ^ 32).
Proof.
  intro Ht. pose proof (rand_r_unsigned32 time) as Hr.
  unfold randomValue, wrapping_randomValue.
  split; [reflexivity | split; [lia | split]].
  - intro Heq.
    pose proof (Z.mod_pos_bound (random (rand_r time) + time) (2 ^ 32)) as Hb.
    lia.
  - intro Hlt. symmetry. apply Z.mod_small. lia.
Qed.

End Deriver.

(** C3: a raw score of at most 99000 is returned unchanged, whatever the
    seed and the generator. *)
Theorem deriver_passthrough (rand_r : Z -> RandR) (time rawScore : Z) :
  rawScore <= 99000 ->
  totalScoreByDamPreciseScoringFromTime rand_r time (Some rawScore) = rawScore.
Proof.
  intro Hraw.
  unfold totalScoreByDamPreciseScoringFromTime, default,
    damPreciseScoringTotalScoreRandomizeThreshold.
  cbv zeta.
  replace (99000 <? rawScore) with false by (symmetry; apply Z.ltb_ge; exact Hraw).
  reflexivity.
Qed.

(** ** The classifier *)

Lemma classify_cases score :
  (score = 100000 /\ classify score = Hundred) \/
  (99990 < score /\ score <> 100000 /\ classify score = Quadruple) \/
  (score <= 99990 /\ classify score = Normal).
Proof.
  unfold classify, damPreciseScoringTotalScore100PointsThreshold.
  destruct (Z.eqb_spec score 100000) as [E | E]; [left; split; [exact E | reflexivity]|].
  destruct (Z.ltb_spec 99990 score) as [L | L]; cbn [andb negb].
  - right; left. repeat split; assumption.
  - right; right. split; [exact L | reflexivity].
Qed.

(** C9: on [0, 100000] the classifier answers Hundred exactly at 100000,
    Quadruple exactly strictly between 99990 and 100000, and Normal exactly
    up to 99990; one and only one of the three holds. *)
Theorem classify_total_exclusive score :
  0 <= score <= 100000 ->
  (classify score = Hundred <-> score = 100000) /\
  (classify score = Quadruple <-> 99990 < score < 100000) /\
  (classify score = Normal <-> score <= 99990).
Proof.
  intro Hs.
  destruct (classify_cases score) as [[E C] | [[L [N C]] | [L C]]];
    rewrite C; repeat split; intros; try discriminate; try lia.
Qed.

(** ** Loops that push onto a result array *)

Lemma zrange_length i n : List.length (zrange i n) = n.
Proof. revert i. induction n as [|n IH]; intro i; cbn; [|rewrite IH]; reflexivity. Qed.

Lemma zrange_In i n k : In k (zrange i n) <-> i <= k < i + Z.of_nat n.
Proof.
  revert i. induction n as [|n IH]; intro i; cbn [zrange In].
  - lia.
  - rewrite IH. lia.
Qed.

Lemma zrange_snoc i n : zrange i (S n) = zrange i n ++ [i + Z.of_nat n].
Proof.
  revert i. induction n as [|n IH]; intro i.
  - cbn. rewrite Z.add_0_r. reflexivity.
  - change (zrange i (S (S n))) with (i :: zrange (i + 1) (S n)).
    rewrite IH. cbn [zrange app]. do 3 f_equal. lia.
Qed.

Section Push.

Context {A : Type}.
Variable body : Z -> list A -> list A.
Hypothesis body_push : forall i result, body i result = result ++ body i [].

Lemma iterate_push n i result :
  iterate n i body result = result ++ flat_map (fun k => body k []) (zrange i n).
Proof.
  revert i result. induction n as [|n IH]; intros i result; cbn [iterate zrange flat_map].
  - symmetry. apply app_nil_r.
  - rewrite IH, (body_push i result), <- app_assoc. reflexivity.
Qed.

End Push.

(** ** The prediction engine *)

Section Predict.

Variable rand_r : Z -> RandR.
Variable startTime : Dayjs.t.
Variables isJst includeNormal includeQuadruple include100 : bool.

Local Abbreviation body :=
  (predict_body rand_r startTime isJst includeNormal includeQuadruple include100).
Local Abbreviation pushed :=
  (pushed_at rand_r startTime isJst includeNormal includeQuadruple include100).

Lemma predict_body_push i result : body i result = result ++ body i [].
Proof.
  unfold predict_body. cbv zeta.
  destruct (_ || _); [reflexivity | symmetry; apply app_nil_r].
Qed.

Lemma predict_body_cases i :
  body i [] = [] \/ exists r, body i [] = [r] /\ pushed i r.
Proof.
  unfold predict_body. cbv zeta.
  fold (seed_of_second startTime isJst i).
  set (score := totalScoreByDamPreciseScoringFromTime rand_r
                  (seed_of_second startTime isJst i) None).
  destruct (_ || _) eqn:E; [right | left; reflexivity].
  eexists. split; [reflexivity|].
  unfold pushed_at. cbn [time scoreInteger scoreType app].
  repeat split.
  - unfold Dayjs.add, Dayjs.step. lia.
  - destruct (classify score), include100, includeQuadruple, includeNormal;
      cbn in E |- *; congruence.
Qed.

Lemma pushed_length i n :
  (List.length (flat_map (fun k => body k []) (zrange i n)) <= n)%nat.
Proof.
  revert i. induction n as [|n IH]; intro i; cbn [zrange flat_map]; [cbn; lia|].
  rewrite length_app. specialize (IH (i + 1)%Z).
  destruct (predict_body_cases i) as [E | [r [E _]]]; rewrite E; cbn; lia.
Qed.

Lemma pushed_In i n r :
  In r (flat_map (fun k => body k []) (zrange i n)) ->
  exists k, i <= k < i + Z.of_nat n /\ pushed k r.
Proof.
  rewrite in_flat_map. intros [k [Hk Hr]].
  apply zrange_In in Hk. exists k. split; [exact Hk|].
  destruct (predict_body_cases k) as [E | [r' [E P]]]; rewrite E in Hr.
  - destruct Hr.
  - destruct Hr as [<- | []]. exact P.
Qed.

Lemma pushed_sorted i n :
  StronglySorted Z.lt (map time (flat_map (fun k => body k []) (zrange i n))).
Proof.
  revert i. induction n as [|n IH]; intro i; cbn [zrange flat_map].
  - constructor.
  - destruct (predict_body_cases i) as [E | [r [E P]]]; rewrite E; cbn [app map].
    + apply IH.
    + constructor; [apply IH|].
      apply Forall_forall. intros t Ht. apply in_map_iff in Ht.
      destruct Ht as [r' [<- Hr']].
      apply pushed_In in Hr'. destruct Hr' as [k [Hk [Pk _]]].
      destruct P as [Pr _]. rewrite Pr, Pk. lia.
Qed.

Lemma for_lt_predict timeLimit :
  for_lt timeLimit body [] =
    flat_map (fun k => body k []) (zrange 0 (Z.to_nat timeLimit)).
Proof.
  unfold for_lt. rewrite (iterate_push body predict_body_push). reflexivity.
Qed.

End Predict.

Lemma predict_unfold rand_r start timeLimit isJst includeNormal includeQuadruple include100 :
  predictDamPreciseScoringTotalScore rand_r start timeLimit
    isJst includeNormal includeQuadruple include100 =
  flat_map
    (fun k => predict_body rand_r start (default true isJst) (default true includeNormal)
                (default true includeQuadruple) (default true include100) k [])
    (zrange 0 (Z.to_nat timeLimit)).
Proof.
  unfold predictDamPreciseScoringTotalScore. cbv zeta. apply for_lt_predict.
Qed.

(** C5: for a positive time limit the predictions are at most [timeLimit]
    many, strictly ascending in [time], and each has a score type whose
    include-flag is true (an omitted flag being true). *)
Theorem predict_length_order_filter
  rand_r start timeLimit isJst includeNormal includeQuadruple include100 :
  0 < timeLimit ->
  let result :=
    predictDamPreciseScoringTotalScore rand_r start timeLimit
      isJst includeNormal includeQuadruple include100 in
  Z.of_nat (List.length result) <= timeLimit /\
  StronglySorted Z.lt (map time result) /\
  Forall (fun r =>
            included (default true includeNormal) (default true includeQuadruple)
              (default true include100) (scoreType r) = true) result.
Proof.
  intro Hpos. cbv zeta. rewrite predict_unfold.
  split; [|split].
  - pose proof (pushed_length rand_r start (default true isJst) (default true includeNormal)
                  (default true includeQuadruple) (default true include100)
                  0 (Z.to_nat timeLimit)).
    lia.
  - apply pushed_sorted.
  - apply Forall_forall. intros r Hr. apply pushed_In in Hr.
    destruct Hr as [k [_ [_ [_ [_ Hinc]]]]]. exact Hinc.
Qed.

(** C8: every prediction carries the caller's instant [startTime + i s] of
    some second [0 <= i < timeLimit] as its [time], with or without the JST
    shift, while its score is derived from the seed of that second, which
    is the instant moved nine hours ahead when [isJst] holds. *)
Theorem predict_time_is_caller_instant
  rand_r start timeLimit isJst includeNormal includeQuadruple include100 r :
  In r (predictDamPreciseScoringTotalScore rand_r start timeLimit
          isJst includeNormal includeQuadruple include100) ->
  exists i,
    0 <= i < timeLimit /\
    time r = Dayjs.add start i Dayjs.second /\
    scoreInteger r =
      totalScoreByDamPreciseScoringFromTime rand_r
        (if default true isJst
         then unixtime_of (Dayjs.add (Dayjs.add start i Dayjs.second) 9 Dayjs.hour)
         else unixtime_of (Dayjs.add start i Dayjs.second))
        None.
Proof.
  rewrite predict_unfold. intro Hr. apply pushed_In in Hr.
  destruct Hr as [k [Hk [Ht [Hs _]]]]. exists k.
  split; [lia | split].
  - rewrite Ht. unfold Dayjs.add, Dayjs.step. lia.
  - exact Hs.
Qed.

(** C10: omitted flags are [true]: a call without them is the call with
    [isJst], [includeNormal], [includeQuadruple] and [include100] all true,
    so no second is filtered out and the seed is the JST-shifted one; the
    UTC seed is used only when [isJst] is passed as false. *)
Theorem predict_defaults rand_r start timeLimit :
  predictDamPreciseScoringTotalScore rand_r start timeLimit None None None None =
    predictDamPreciseScoringTotalScore rand_r start timeLimit
      (Some true) (Some true) (Some true) (Some true) /\
  map time (predictDamPreciseScoringTotalScore rand_r start timeLimit None None None None) =
    map (fun i => Dayjs.add start i Dayjs.second) (zrange 0 (Z.to_nat timeLimit)) /\
  map scoreInteger (predictDamPreciseScoringTotalScore rand_r start 1 None None None None) =
    [totalScoreByDamPreciseScoringFromTime rand_r (unixtime_of start + 32400) None] /\
  map scoreInteger
      (predictDamPreciseScoringTotalScore rand_r start 1 (Some false) None None None) =
    [totalScoreByDamPreciseScoringFromTime rand_r (unixtime_of start) None].
Proof.
  split; [reflexivity | split; [|split]].
  - rewrite predict_unfold. cbn [default].
    generalize 0 at 1 2. induction (Z.to_nat timeLimit) as [|n IH]; intro i;
      cbn [zrange flat_map map]; [reflexivity|].
    rewrite map_app, IH. unfold predict_body at 1. cbv zeta.
    destruct (classify _); reflexivity.
  - rewrite predict_unfold. change (Z.to_nat 1) with 1%nat.
    cbn [default zrange flat_map]. rewrite app_nil_r.
    unfold predict_body. cbv zeta.
    replace (unixtime_of (Dayjs.add (Dayjs.add start 0 Dayjs.second) 9 Dayjs.hour))
      with (unixtime_of start + 32400).
    + destruct (classify _); reflexivity.
    + unfold unixtime_of, Js.floor_div, Dayjs.valueOf, Dayjs.add, Dayjs.step.
      replace (start + 0 * 1000 + 9 * 3600000) with (start + 32400 * 1000) by lia.
      rewrite Z.div_add by lia. reflexivity.
  - rewrite predict_unfold. change (Z.to_nat 1) with 1%nat.
    cbn [default zrange flat_map]. rewrite app_nil_r.
    unfold predict_body. cbv zeta.
    replace (Dayjs.add start 0 Dayjs.second) with start
      by (unfold Dayjs.add, Dayjs.step; lia).
    destruct (classify _); reflexivity.
Qed.

(** ** Loops whose bound may be infinite *)

Lemma for_number_Fin {St : Type} (body : Z -> St -> St) n fuel i s :
  (Z.to_nat (n - i) < fuel)%nat ->
  for_number fuel i (Js.Fin n) body s = Some (iterate (Z.to_nat (n - i)) i body s).
Proof.
  revert i s. induction fuel as [|fuel IH]; intros i s Hfuel; [lia|].
  cbn [for_number Js.lt]. destruct (Z.ltb_spec i n) as [L | L].
  - rewrite IH by lia.
    replace (Z.to_nat (n - i)) with (S (Z.to_nat (n - (i + 1)))) by lia.
    reflexivity.
  - replace (Z.to_nat (n - i)) with O by lia. reflexivity.
Qed.

Lemma for_number_PosInf {St : Type} (body : Z -> St -> St) fuel i s :
  for_number fuel i Js.PosInf body s = None.
Proof.
  revert i s. induction fuel as [|fuel IH]; intros i s; cbn [for_number Js.lt];
    [reflexivity | apply IH].
Qed.

(** ** The counting engine *)

Lemma zsum_app g i n m :
  zsum g i (n + m) = zsum g i n + zsum g (i + Z.of_nat n) m.
Proof.
  revert i. induction n as [|n IH]; intro i; cbn [zsum Nat.add].
  - rewrite Z.add_0_r. reflexivity.
  - rewrite IH. replace (i + 1 + Z.of_nat n) with (i + Z.of_nat (S n)) by lia. lia.
Qed.

Lemma zsum_ext g h i n :
  (forall k, i <= k < i + Z.of_nat n -> g k = h k) -> zsum g i n = zsum h i n.
Proof.
  revert i. induction n as [|n IH]; intros i H; cbn [zsum]; [reflexivity|].
  rewrite (H i) by lia. rewrite IH; [reflexivity|]. intros k Hk. apply H. lia.
Qed.

Lemma zsum_shift g a i n :
  zsum (fun j => g (a + j)) i n = zsum g (a + i) n.
Proof.
  revert i. induction n as [|n IH]; intro i; cbn [zsum]; [reflexivity|].
  rewrite IH. replace (a + (i + 1)) with (a + i + 1) by lia. reflexivity.
Qed.

Lemma sum_list_app l1 l2 : sum_list (l1 ++ l2) = sum_list l1 + sum_list l2.
Proof.
  unfold sum_list. induction l1 as [|x l1 IH]; cbn [app fold_right]; [reflexivity | lia].
Qed.

(** Whole spans of [s] seconds add up to one run over all their seconds. *)
Lemma sum_whole_spans g s m :
  0 <= s ->
  sum_list (map (fun i => zsum g (i * s) (Z.to_nat s)) (zrange 0 m)) =
    zsum g 0 (m * Z.to_nat s).
Proof.
  intro Hs. induction m as [|m IH]; [reflexivity|].
  rewrite zrange_snoc, map_app, sum_list_app, IH. cbn [map sum_list fold_right].
  replace (S m * Z.to_nat s)%nat with (m * Z.to_nat s + Z.to_nat s)%nat by lia.
  rewrite zsum_app, Z.add_0_r, Nat2Z.inj_mul, Z2Nat.id by exact Hs.
  reflexivity.
Qed.

Lemma hit_shift rand_r seed_of ty start a j :
  hit rand_r seed_of ty (Dayjs.add start a Dayjs.second) j =
    hit rand_r seed_of ty start (a + j).
Proof.
  unfold hit.
  replace (Dayjs.add (Dayjs.add start a Dayjs.second) j Dayjs.second)
    with (Dayjs.add start (a + j) Dayjs.second)
    by (unfold Dayjs.add, Dayjs.step; lia).
  reflexivity.
Qed.

Section Count.

Variable rand_r : Z -> RandR.

Lemma count_second_hits lst j c :
  count_second rand_r lst j c =
    mkTally (hundredCountUtc c + hit rand_r seed_utc Hundred lst j)
            (quadrupleCountUtc c + hit rand_r seed_utc Quadruple lst j)
            (hundredCountJst c + hit rand_r seed_jst Hundred lst j)
            (quadrupleCountJst c + hit rand_r seed_jst Quadruple lst j).
Proof.
  unfold count_second, hit, seed_utc, seed_jst, classify. cbv zeta.
  destruct c as [hu qu hj qj]. cbn [hundredCountUtc quadrupleCountUtc
    hundredCountJst quadrupleCountJst].
  set (su := totalScoreByDamPreciseScoringFromTime rand_r
               (unixtime_of (Dayjs.add lst j Dayjs.second)) None).
  set (sj := totalScoreByDamPreciseScoringFromTime rand_r
               (unixtime_of (Dayjs.add (Dayjs.add lst j Dayjs.second) 9 Dayjs.hour))
               None).
  destruct (su =? 100000), (damPreciseScoringTotalScore100PointsThreshold <? su),
    (sj =? 100000), (damPreciseScoringTotalScore100PointsThreshold <? sj);
    cbn; f_equal; lia.
Qed.

Lemma tally_iterate lst n j c :
  iterate n j (count_second rand_r lst) c =
    mkTally (hundredCountUtc c + zsum (hit rand_r seed_utc Hundred lst) j n)
            (quadrupleCountUtc c + zsum (hit rand_r seed_utc Quadruple lst) j n)
            (hundredCountJst c + zsum (hit rand_r seed_jst Hundred lst) j n)
            (quadrupleCountJst c + zsum (hit rand_r seed_jst Quadruple lst) j n).
Proof.
  revert j c. induction n as [|n IH]; intros j c; cbn [iterate zsum].
  - destruct c; cbn. f_equal; lia.
  - rewrite IH, count_second_hits. cbn. f_equal; lia.
Qed.

Lemma zsum_hit_shift seed_of ty start a n :
  zsum (hit rand_r seed_of ty (Dayjs.add start a Dayjs.second)) 0 n =
    zsum (hit rand_r seed_of ty start) a n.
Proof.
  rewrite (zsum_ext _ (fun j => hit rand_r seed_of ty start (a + j)))
    by (intros; apply hit_shift).
  rewrite zsum_shift, Z.add_0_r. reflexivity.
Qed.

Variable start : Dayjs.t.
Variable timeSpans : Js.number.
Variables timeSpan timeLimit : Z.

Lemma count_body_push i result :
  count_body rand_r start timeSpans timeSpan timeLimit i result =
    result ++ [span_record rand_r start timeSpans timeSpan timeLimit i].
Proof.
  unfold count_body, span_record, for_lt. cbv zeta.
  rewrite tally_iterate. cbn [hundredCountUtc quadrupleCountUtc
    hundredCountJst quadrupleCountJst].
  rewrite !zsum_hit_shift. reflexivity.
Qed.

Lemma count_iterate n i result :
  iterate n i (count_body rand_r start timeSpans timeSpan timeLimit) result =
    result ++ map (span_record rand_r start timeSpans timeSpan timeLimit) (zrange i n).
Proof.
  revert i result. induction n as [|n IH]; intros i result; cbn [iterate zrange map].
  - symmetry. apply app_nil_r.
  - rewrite IH, count_body_push, <- app_assoc. reflexivity.
Qed.

End Count.

(** The single pass agrees with the running sums of [hit]. *)
Lemma tally_pass_hits rand_r seed_of start timeLimit :
  tally_pass rand_r seed_of start timeLimit =
    mkCounts (zsum (hit rand_r seed_of Hundred start) 0 (Z.to_nat timeLimit))
             (zsum (hit rand_r seed_of Quadruple start) 0 (Z.to_nat timeLimit)).
Proof.
  unfold tally_pass, for_lt.
  assert (G : forall n k c,
    iterate n k
      (fun k c =>
         match classify (totalScoreByDamPreciseScoringFromTime rand_r
                           (seed_of (Dayjs.add start k Dayjs.second)) None) with
         | Hundred => mkCounts (hundredCount c + 1) (quadrupleCount c)
         | Quadruple => mkCounts (hundredCount c) (quadrupleCount c + 1)
         | Normal => c
         end) c =
    mkCounts (hundredCount c + zsum (hit rand_r seed_of Hundred start) k n)
             (quadrupleCount c + zsum (hit rand_r seed_of Quadruple start) k n)).
  { induction n as [|n IH]; intros k c; cbn [iterate zsum].
    - destruct c; cbn. f_equal; lia.
    - rewrite IH.
      assert (Hh : hit rand_r seed_of Hundred start k =
                   match classify (totalScoreByDamPreciseScoringFromTime rand_r
                           (seed_of (Dayjs.add start k Dayjs.second)) None) with
                   | Hundred => 1 | _ => 0 end)
        by (unfold hit; destruct (classify _); reflexivity).
      assert (Hq : hit rand_r seed_of Quadruple start k =
                   match classify (totalScoreByDamPreciseScoringFromTime rand_r
                           (seed_of (Dayjs.add start k Dayjs.second)) None) with
                   | Quadruple => 1 | _ => 0 end)
        by (unfold hit; destruct (classify _); reflexivity).
      rewrite Hh, Hq.
      destruct (classify _), c; cbn [hundredCount quadrupleCount]; f_equal; lia. }
  rewrite G. reflexivity.
Qed.

(** The number of spans of a valid window, and the length of the last. *)
Lemma ceil_div_valid timeSpan timeLimit :
  0 < timeSpan -> 0 < timeLimit ->
  exists n,
    Js.ceil_div timeLimit timeSpan = Js.Fin n /\
    1 <= n <= timeLimit /\
    (n - 1) * timeSpan < timeLimit <= n * timeSpan /\
    Z.rem timeLimit timeSpan = timeLimit mod timeSpan /\
    (n - 1) * timeSpan
      + (if Js.truthy (Z.rem timeLimit timeSpan)
         then Z.rem timeLimit timeSpan else timeSpan) = timeLimit.
Proof.
  intros Hs Hd. unfold Js.ceil_div, Js.truthy.
  replace (timeSpan =? 0) with false by (symmetry; apply Z.eqb_neq; lia).
  rewrite Z.rem_mod_nonneg by lia.
  pose proof (Z.div_mod timeLimit timeSpan ltac:(lia)) as Hdm.
  pose proof (Z.mod_pos_bound timeLimit timeSpan Hs) as Hm.
  eexists. split; [reflexivity|].
  destruct (Z.eqb_spec (timeLimit mod timeSpan) 0) as [E | E]; cbn [negb].
  - rewrite Z.div_opp_l_z by lia. nia.
  - rewrite Z.div_opp_l_nz by lia. nia.
Qed.

Lemma nth_error_zrange i n k x :
  nth_error (zrange i n) k = Some x -> x = i + Z.of_nat k /\ (k < n)%nat.
Proof.
  revert i k. induction n as [|n IH]; intros i k H.
  - destruct k; discriminate H.
  - destruct k as [|k]; cbn [zrange nth_error] in H.
    + injection H as <-. lia.
    + apply IH in H. lia.
Qed.

Lemma localTimeSpan_Fin n timeSpan timeLimit i :
  localTimeSpan (Js.Fin n) timeSpan timeLimit i =
    if (i =? n - 1) && Js.truthy (Z.rem timeLimit timeSpan)
    then Z.rem timeLimit timeSpan else timeSpan.
Proof. reflexivity. Qed.

(** On a valid window the method returns, with any fuel above [timeLimit],
    one record per span. *)
Lemma count_valid rand_r fuel start timeSpan timeLimit :
  0 < timeSpan -> 0 < timeLimit -> (Z.to_nat timeLimit < fuel)%nat ->
  exists n,
    1 <= n /\
    (n - 1) * timeSpan < timeLimit <= n * timeSpan /\
    Z.rem timeLimit timeSpan = timeLimit mod timeSpan /\
    (n - 1) * timeSpan
      + (if Js.truthy (Z.rem timeLimit timeSpan)
         then Z.rem timeLimit timeSpan else timeSpan) = timeLimit /\
    countDamPreciseScoringTotalScorePrediction rand_r fuel start timeSpan timeLimit =
      Some (map (span_record rand_r start (Js.Fin n) timeSpan timeLimit)
              (zrange 0 (Z.to_nat n))).
Proof.
  intros Hs Hd Hfuel.
  destruct (ceil_div_valid timeSpan timeLimit Hs Hd) as [n [Hc [Hn [Hb [Hr Hl]]]]].
  exists n. repeat (split; [assumption || lia|]).
  unfold countDamPreciseScoringTotalScorePrediction. cbv zeta. rewrite Hc.
  rewrite for_number_Fin by lia.
  rewrite count_iterate, Z.sub_0_r. reflexivity.
Qed.

(** The per-span sums of any per-second quantity [g] add up to its sum over
    the whole window. *)
Lemma spans_sum g n timeSpan timeLimit :
  0 < timeSpan -> 1 <= n ->
  (n - 1) * timeSpan
    + (if Js.truthy (Z.rem timeLimit timeSpan)
       then Z.rem timeLimit timeSpan else timeSpan) = timeLimit ->
  0 <= Z.rem timeLimit timeSpan ->
  sum_list
    (map (fun i => zsum g (i * timeSpan)
                     (Z.to_nat (localTimeSpan (Js.Fin n) timeSpan timeLimit i)))
       (zrange 0 (Z.to_nat n))) =
  zsum g 0 (Z.to_nat timeLimit).
Proof.
  intros Hs Hn Hl Hr.
  replace (Z.to_nat n) with (S (Z.to_nat (n - 1))) by lia.
  rewrite zrange_snoc, map_app, sum_list_app.
  rewrite (map_ext_in _ (fun i => zsum g (i * timeSpan) (Z.to_nat timeSpan))).
  - rewrite sum_whole_spans by lia. cbn [map sum_list fold_right].
    rewrite localTimeSpan_Fin, Z.add_0_r.
    replace (0 + Z.of_nat (Z.to_nat (n - 1))) with (n - 1) by lia.
    rewrite Z.eqb_refl. cbn [andb].
    set (last := if Js.truthy (Z.rem timeLimit timeSpan)
                 then Z.rem timeLimit timeSpan else timeSpan) in *.
    assert (Hlast : 0 <= last) by (subst last; destruct (Js.truthy _); lia).
    replace (Z.to_nat timeLimit)
      with (Z.to_nat (n - 1) * Z.to_nat timeSpan + Z.to_nat last)%nat by nia.
    rewrite zsum_app, Nat2Z.inj_mul, !Z2Nat.id by lia. reflexivity.
  - intros i Hi. apply zrange_In in Hi. rewrite localTimeSpan_Fin.
    replace (i =? n - 1) with false by (symmetry; apply Z.eqb_neq; lia).
    reflexivity.
Qed.

(** C6: on a valid window the method returns ceil(timeLimit / timeSpan)
    records, span [k] starting [k * timeSpan] seconds after the start and
    lasting [timeSpan] seconds, except that the last span lasts
    [timeLimit mod timeSpan] seconds when that is not zero; consecutive
    spans share a bound; a span of 10 over 25 seconds gives the three spans
    [0, 10), [10, 20) and [20, 25). *)
Theorem count_spans rand_r fuel start timeSpan timeLimit :
  0 < timeSpan -> 0 < timeLimit -> (Z.to_nat timeLimit < fuel)%nat ->
  exists result,
    countDamPreciseScoringTotalScorePrediction rand_r fuel start timeSpan timeLimit =
      Some result /\
    let n := Z.of_nat (List.length result) in
    (n - 1) * timeSpan < timeLimit <= n * timeSpan /\
    (forall k r,
        nth_error result k = Some r ->
        startTime r = Dayjs.add start (Z.of_nat k * timeSpan) Dayjs.second /\
        endTime r =
          Dayjs.add (startTime r)
            (if (Z.of_nat k =? n - 1) && negb (timeLimit mod timeSpan =? 0)
             then timeLimit mod timeSpan else timeSpan)
            Dayjs.second) /\
    (forall k r r',
        nth_error result k = Some r -> nth_error result (S k) = Some r' ->
        endTime r = startTime r') /\
    (timeSpan = 10 -> timeLimit = 25 ->
     map (fun r => (startTime r - start, endTime r - start)) result =
       [(0, 10000); (10000, 20000); (20000, 25000)]).
Proof.
  intros Hs Hd Hfuel.
  destruct (count_valid rand_r fuel start timeSpan timeLimit Hs Hd Hfuel)
    as [n [Hn [Hb [Hr [_ Hc]]]]].
  eexists. split; [exact Hc|]. cbv zeta.
  rewrite length_map, zrange_length, Z2Nat.id by lia.
  assert (Hnth : forall k r,
    nth_error (map (span_record rand_r start (Js.Fin n) timeSpan timeLimit)
                 (zrange 0 (Z.to_nat n))) k = Some r ->
    r = span_record rand_r start (Js.Fin n) timeSpan timeLimit (Z.of_nat k) /\
    Z.of_nat k < n).
  { intros k r H. rewrite nth_error_map in H.
    destruct (nth_error (zrange 0 (Z.to_nat n)) k) as [x|] eqn:E; [|discriminate H].
    apply nth_error_zrange in E. destruct E as [-> Hk].
    injection H as <-. split; [reflexivity | lia]. }
  split; [exact Hb | split; [|split]].
  - intros k r H. apply Hnth in H. destruct H as [-> Hk].
    unfold span_record. cbv zeta. cbn [startTime endTime].
    rewrite localTimeSpan_Fin. unfold Js.truthy. rewrite Hr.
    split; reflexivity.
  - intros k r r' H H'. apply Hnth in H, H'. destruct H as [-> _], H' as [-> Hk].
    unfold span_record. cbv zeta. cbn [startTime endTime].
    rewrite localTimeSpan_Fin.
    replace (Z.of_nat k =? n - 1) with false by (symmetry; apply Z.eqb_neq; lia).
    cbn [andb]. unfold Dayjs.add, Dayjs.step. lia.
  - intros -> ->. assert (n = 3) as -> by lia.
    change (Z.to_nat 3) with 3%nat. cbn [zrange map].
    unfold span_record. cbv zeta. cbn [startTime endTime].
    rewrite !localTimeSpan_Fin. cbn. unfold Dayjs.add, Dayjs.step.
    repeat f_equal; lia.
Qed.

(** C7: on a valid window the hundred and quadruple counts of the returned
    records, summed over the spans, are the counts of a single pass over
    the whole window, under the UTC seeds and under the JST seeds alike. *)
Theorem count_sums_equal_single_pass rand_r fuel start timeSpan timeLimit :
  0 < timeSpan -> 0 < timeLimit -> (Z.to_nat timeLimit < fuel)%nat ->
  exists result,
    countDamPreciseScoringTotalScorePrediction rand_r fuel start timeSpan timeLimit =
      Some result /\
    sum_list (map (fun r => hundredCount (utc r)) result) =
      hundredCount (tally_pass rand_r seed_utc start timeLimit) /\
    sum_list (map (fun r => quadrupleCount (utc r)) result) =
      quadrupleCount (tally_pass rand_r seed_utc start timeLimit) /\
    sum_list (map (fun r => hundredCount (jst r)) result) =
      hundredCount (tally_pass rand_r seed_jst start timeLimit) /\
    sum_list (map (fun r => quadrupleCount (jst r)) result) =
      quadrupleCount (tally_pass rand_r seed_jst start timeLimit).
Proof.
  intros Hs Hd Hfuel.
  destruct (count_valid rand_r fuel start timeSpan timeLimit Hs Hd Hfuel)
    as [n [Hn [_ [Hr [Hl Hc]]]]].
  eexists. split; [exact Hc|].
  rewrite !tally_pass_hits. cbn [hundredCount quadrupleCount].
  rewrite !map_map. unfold span_record. cbv zeta. cbn [utc jst hundredCount quadrupleCount].
  assert (Hrem : 0 <= Z.rem timeLimit timeSpan)
    by (rewrite Hr; apply Z.mod_pos_bound; exact Hs).
  repeat split; apply spans_sum; assumption.
Qed.

(** X11: when the span is zero and the time limit positive, the loop bound
    is [Infinity] and the method does not return, whatever the fuel. *)
Lemma count_zero_span_never_returns rand_r fuel start timeLimit :
  0 < timeLimit ->
  countDamPreciseScoringTotalScorePrediction rand_r fuel start 0 timeLimit = None.
Proof.
  intro Hd. unfold countDamPreciseScoringTotalScorePrediction, Js.ceil_div. cbv zeta.
  cbn [Z.eqb]. replace (0 <? timeLimit) with true by (symmetry; apply Z.ltb_lt; exact Hd).
  apply for_number_PosInf.
Qed.

(** C4 (amended): with a time limit of zero or less no iteration takes
    place and an empty array is returned: by the prediction method always,
    by the counting method when the span is positive. *)
Theorem nonpositive_limit_returns_empty
  rand_r fuel start timeSpan timeLimit isJst includeNormal includeQuadruple include100 :
  timeLimit <= 0 ->
  predictDamPreciseScoringTotalScore rand_r start timeLimit
    isJst includeNormal includeQuadruple include100 = [] /\
  (0 < timeSpan -> (0 < fuel)%nat ->
   countDamPreciseScoringTotalScorePrediction rand_r fuel start timeSpan timeLimit =
     Some []).
Proof.
  intro Hd. split.
  - unfold predictDamPreciseScoringTotalScore, for_lt. cbv zeta.
    replace (Z.to_nat timeLimit) with O by lia. reflexivity.
  - intros Hs Hfuel.
    unfold countDamPreciseScoringTotalScorePrediction, Js.ceil_div. cbv zeta.
    replace (timeSpan =? 0) with false by (symmetry; apply Z.eqb_neq; lia).
    destruct fuel as [|fuel]; [lia|]. cbn [for_number Js.lt].
    replace (0 <? - (- timeLimit / timeSpan)) with false; [reflexivity|].
    symmetry. apply Z.ltb_ge.
    pose proof (Z.div_pos (- timeLimit) timeSpan ltac:(lia) Hs). lia.
Qed.

(** * Concrete runs with [reference_rand_r] *)

Lemma deriver_range_witness :
  0 <= 1640995200 /\ 99000 < 99999 /\
  (99000 <= totalScoreByDamPreciseScoringFromTime reference_rand_r 1640995200 (Some 99999)
         <= 99999 - 1 \/
   totalScoreByDamPreciseScoringFromTime reference_rand_r 1640995200 (Some 99999) = 100000).
Proof.
  split; [lia | split; [lia|]].
  apply (deriver_range reference_rand_r reference_rand_r_unsigned32 1640995200 99999); lia.
Defined.

(** C2, as stated, fails: at the seed 2^32 the generator draws 0 and the
    sum is 2^32 itself, while
    the sum wrapped to 32 bits is 0; the derived score is 99562, where the
    wrapped sum would give 99000. *)
Lemma randomValue_does_not_wrap :
  randomValue reference_rand_r 4294967296 = 4294967296 /\
  wrapping_randomValue reference_rand_r 4294967296 = 0 /\
  randomValue reference_rand_r 4294967296 <>
    wrapping_randomValue reference_rand_r 4294967296 /\
  totalScoreByDamPreciseScoringFromTime reference_rand_r 4294967296 None = 99562 /\
  Z.rem (wrapping_randomValue reference_rand_r 4294967296) (99999 - 99000) + 99000 = 99000.
Proof.
  repeat split; try (vm_compute; reflexivity).
  vm_compute. discriminate.
Qed.

Lemma randomValue_exact_witness :
  0 <= 4294967296 /\
  randomValue reference_rand_r 4294967296 =
    random (reference_rand_r 4294967296) + 4294967296 /\
  4294967296 <= randomValue reference_rand_r 4294967296 < 4294967296 + 2 ^ 32 /\
  (randomValue reference_rand_r 4294967296 =
     wrapping_randomValue reference_rand_r 4294967296 <->
   random (reference_rand_r 4294967296) + 4294967296 < 2 ^ 32).
Proof.
  split; [lia|].
  apply (randomValue_exact reference_rand_r reference_rand_r_unsigned32 4294967296); lia.
Defined.

Lemma deriver_passthrough_witness :
  98000 <= 99000 /\
  totalScoreByDamPreciseScoringFromTime reference_rand_r 1640995200 (Some 98000) = 98000.
Proof.
  split; [lia | apply (deriver_passthrough reference_rand_r 1640995200 98000); lia].
Defined.

Lemma classify_total_exclusive_witness :
  0 <= 99995 <= 100000 /\
  (classify 99995 = Hundred <-> 99995 = 100000) /\
  (classify 99995 = Quadruple <-> 99990 < 99995 < 100000) /\
  (classify 99995 = Normal <-> 99995 <= 99990).
Proof.
  split; [lia | apply (classify_total_exclusive 99995); lia].
Defined.

(** Whatever the generator, at the seed 2^32 the sum has left the 32-bit
    range. *)
Lemma randomValue_exceeds_width rand_r :
  unsigned32 rand_r ->
  randomValue rand_r 4294967296 <> wrapping_randomValue rand_r 4294967296.
Proof.
  intros Hu Heq. unfold randomValue, wrapping_randomValue in Heq.
  pose proof (Hu 4294967296) as Hr.
  pose proof (Z.mod_pos_bound (random (rand_r 4294967296) + 4294967296) (2 ^ 32)) as Hb.
  change (2 ^ 32) with 4294967296 in *. lia.
Qed.

(** C4, as stated, fails: with a time limit of 0 or -5 the prediction
    method returns an empty array; with a span of 10 and a time limit of 0 so does the counting
    method; with a span of -10 and a time limit of -25 the counting method
    returns three records whose spans run backwards.  No call fails. *)
Lemma invalid_window_returns :
  predictDamPreciseScoringTotalScore reference_rand_r 1640995200000 0
    None None None None = [] /\
  predictDamPreciseScoringTotalScore reference_rand_r 1640995200000 (-5)
    None None None None = [] /\
  countDamPreciseScoringTotalScorePrediction reference_rand_r 1 1640995200000 10 0 =
    Some [] /\
  countDamPreciseScoringTotalScorePrediction reference_rand_r 4 1640995200000 (-10) (-25) =
    Some [mkCount 1640995200000 1640995190000 (mkCounts 0 0) (mkCounts 0 0);
          mkCount 1640995190000 1640995180000 (mkCounts 0 0) (mkCounts 0 0);
          mkCount 1640995180000 1640995175000 (mkCounts 0 0) (mkCounts 0 0)].
Proof.
  repeat split; vm_compute; reflexivity.
Qed.

Lemma nonpositive_limit_returns_empty_witness :
  0 <= 0 /\
  predictDamPreciseScoringTotalScore reference_rand_r 1640995200000 0
    None None None None = [] /\
  (0 < 10 -> (0 < 1)%nat ->
   countDamPreciseScoringTotalScorePrediction reference_rand_r 1 1640995200000 10 0 =
     Some []).
Proof.
  split; [lia|].
  apply (nonpositive_limit_returns_empty reference_rand_r 1 1640995200000 10 0
           None None None None).
  lia.
Defined.

Lemma predict_length_order_filter_witness :
  0 < 400 /\
  Z.of_nat (List.length
              (predictDamPreciseScoringTotalScore reference_rand_r 1640995200000 400
                 None (Some false) None None)) <= 400 /\
  StronglySorted Z.lt
    (map time
       (predictDamPreciseScoringTotalScore reference_rand_r 1640995200000 400
          None (Some false) None None)) /\
  Forall (fun r =>
            included (default true (Some false)) (default true None)
              (default true None) (scoreType r) = true)
    (predictDamPreciseScoringTotalScore reference_rand_r 1640995200000 400
       None (Some false) None None).
Proof.
  split; [lia|].
  apply (predict_length_order_filter reference_rand_r 1640995200000 400
           None (Some false) None None).
  lia.
Defined.

Lemma predict_time_is_caller_instant_witness :
  In (mkPrediction 1640995201000 99811 "99.811" Normal)
     (predictDamPreciseScoringTotalScore reference_rand_r 1640995200000 2
        None None None None) /\
  exists i,
    0 <= i < 2 /\
    time (mkPrediction 1640995201000 99811 "99.811" Normal) =
      Dayjs.add 1640995200000 i Dayjs.second /\
    scoreInteger (mkPrediction 1640995201000 99811 "99.811" Normal) =
      totalScoreByDamPreciseScoringFromTime reference_rand_r
        (if default true None
         then unixtime_of
                (Dayjs.add (Dayjs.add 1640995200000 i Dayjs.second) 9 Dayjs.hour)
         else unixtime_of (Dayjs.add 1640995200000 i Dayjs.second))
        None.
Proof.
  split.
  - vm_compute. right; left; reflexivity.
  - apply (predict_time_is_caller_instant reference_rand_r 1640995200000 2
             None None None None).
    vm_compute. right; left; reflexivity.
Defined.

Lemma count_spans_witness :
  0 < 10 /\ 0 < 25 /\ (Z.to_nat 25 < 26)%nat /\
  exists result,
    countDamPreciseScoringTotalScorePrediction reference_rand_r 26 1640995200000 10 25 =
      Some result /\
    let n := Z.of_nat (List.length result) in
    (n - 1) * 10 < 25 <= n * 10 /\
    (forall k r,
        nth_error result k = Some r ->
        startTime r = Dayjs.add 1640995200000 (Z.of_nat k * 10) Dayjs.second /\
        endTime r =
          Dayjs.add (startTime r)
            (if (Z.of_nat k =? n - 1) && negb (25 mod 10 =? 0)
             then 25 mod 10 else 10)
            Dayjs.second) /\
    (forall k r r',
        nth_error result k = Some r -> nth_error result (S k) = Some r' ->
        endTime r = startTime r') /\
    (10 = 10 -> 25 = 25 ->
     map (fun r => (startTime r - 1640995200000, endTime r - 1640995200000)) result =
       [(0, 10000); (10000, 20000); (20000, 25000)]).
Proof.
  split; [lia | split; [lia | split; [lia|]]].
  apply (count_spans reference_rand_r 26 1640995200000 10 25); lia.
Defined.

Lemma count_sums_equal_single_pass_witness :
  0 < 1000 /\ 0 < 2500 /\ (Z.to_nat 2500 < 2501)%nat /\
  exists result,
    countDamPreciseScoringTotalScorePrediction reference_rand_r 2501 1640995200000
      1000 2500 = Some result /\
    sum_list (map (fun r => hundredCount (utc r)) result) =
      hundredCount (tally_pass reference_rand_r seed_utc 1640995200000 2500) /\
    sum_list (map (fun r => quadrupleCount (utc r)) result) =
      quadrupleCount (tally_pass reference_rand_r seed_utc 1640995200000 2500) /\
    sum_list (map (fun r => hundredCount (jst r)) result) =
      hundredCount (tally_pass reference_rand_r seed_jst 1640995200000 2500) /\
    sum_list (map (fun r => quadrupleCount (jst r)) result) =
      quadrupleCount (tally_pass reference_rand_r seed_jst 1640995200000 2500).
Proof.
  split; [lia | split; [lia | split; [lia|]]].
  apply (count_sums_equal_single_pass reference_rand_r 2501 1640995200000 1000 2500); lia.
Defined.

(** The run of the witness above: three spans, with 10, 7 and 3 hundreds
    under UTC seeds and 9, 8 and 5 under JST seeds; the single pass counts
    20 and 22. *)
Example count_run :
  countDamPreciseScoringTotalScorePrediction reference_rand_r 4 1640995200000 1000 2500 =
    Some [mkCount 1640995200000 1640996200000 (mkCounts 10 0) (mkCounts 9 0);
          mkCount 1640996200000 1640997200000 (mkCounts 7 0) (mkCounts 8 0);
          mkCount 1640997200000 1640997700000 (mkCounts 3 0) (mkCounts 5 0)] /\
  tally_pass reference_rand_r seed_utc 1640995200000 2500 = mkCounts 20 0 /\
  tally_pass reference_rand_r seed_jst 1640995200000 2500 = mkCounts 22 0.
Proof.
  repeat split; vm_compute; reflexivity.
Qed.


(** * Further properties of the service *)

(** ** The score deriver *)

Section DeriverEdges.

Variable rand_r : Z -> RandR.
Hypothesis rand_r_unsigned32 : unsigned32 rand_r.

(** With the default raw score 99999 the derived score is between 99000
    and 99998, or 100000. *)
Lemma deriver_default_range time :
  0 <= time ->
  let score := totalScoreByDamPreciseScoringFromTime rand_r time None in
  99000 <= score <= 99998 \/ score = 100000.
Proof.
  intro Ht. cbv zeta.
  change (totalScoreByDamPreciseScoringFromTime rand_r time None)
    with (totalScoreByDamPreciseScoringFromTime rand_r time (Some 99999)).
  rewrite deriver_above by lia. cbv zeta.
  pose proof (randomValue_nonneg rand_r rand_r_unsigned32 time Ht) as Hrv.
  rewrite (Z.rem_mod_nonneg _ (99999 - 99000)) by lia.
  pose proof (Z.mod_pos_bound (randomValue rand_r time) (99999 - 99000)) as Hb.
  destruct ((99990 <? _) && _); [right; reflexivity | left; lia].
Qed.

(** X1: for a raw score above 99000 and at most 100000 the deriver can
    return 100000 only when the raw score is between 99992 and 99999: a raw
    score up to 99991 stays below the 100-point threshold, and with the raw
    score 100000 the judgement is the remainder that passed the threshold. *)
Theorem deriver_hundred_only_from_high_raw time rawScore :
  0 <= time ->
  99000 < rawScore <= 100000 ->
  totalScoreByDamPreciseScoringFromTime rand_r time (Some rawScore) = 100000 ->
  99992 <= rawScore <= 99999.
Proof.
  intros Ht Hraw. rewrite deriver_above by lia. cbv zeta.
  pose proof (randomValue_nonneg rand_r rand_r_unsigned32 time Ht) as Hrv.
  rewrite (Z.rem_mod_nonneg _ (rawScore - 99000)) by lia.
  rewrite (Z.rem_mod_nonneg _ 1000) by lia.
  pose proof (Z.mod_pos_bound (randomValue rand_r time) (rawScore - 99000)) as Hb.
  destruct (Z.ltb_spec 99990 (randomValue rand_r time mod (rawScore - 99000) + 99000))
    as [Hhi | Hlo]; cbn [andb].
  - destruct (Z.ltb_spec (randomValue rand_r time mod 1000) 500) as [Hj | Hj].
    + intros _. assert (rawScore <> 100000); [|lia].
      intros ->. replace (100000 - 99000) with 1000 in Hhi by lia. lia.
    + intro Heq. lia.
  - intro Heq. lia.
Qed.

End DeriverEdges.

Lemma deriver_hundred_only_from_high_raw_witness :
  0 <= 1641027694 /\ 99000 < 99999 <= 100000 /\
  totalScoreByDamPreciseScoringFromTime reference_rand_r 1641027694 (Some 99999) = 100000 /\
  99992 <= 99999 <= 99999.
Proof.
  split; [lia | split; [lia | split; [vm_compute; reflexivity|]]].
  apply (deriver_hundred_only_from_high_raw reference_rand_r reference_rand_r_unsigned32
           1641027694 99999); [lia | lia | vm_compute; reflexivity].
Defined.

(** ** The prediction engine *)

(** What one iteration pushes, written out. *)
Lemma predict_body_record rand_r start isJst includeNormal includeQuadruple include100 i :
  predict_body rand_r start isJst includeNormal includeQuadruple include100 i [] =
    let score :=
      totalScoreByDamPreciseScoringFromTime rand_r (seed_of_second start isJst i) None in
    if included includeNormal includeQuadruple include100 (classify score)
    then [mkPrediction (Dayjs.add start i Dayjs.second) score
            (append (Js.toString (Js.floor_div score 1000))
               (append "." (Js.padStart (Js.toString (Js.rem score 1000)) 3 "0")))
            (classify score)]
    else [].
Proof.
  unfold predict_body, seed_of_second. cbv zeta.
  destruct (classify _), include100, includeQuadruple, includeNormal; reflexivity.
Qed.

Lemma seed_of_second_nonneg start isJst i :
  0 <= start -> 0 <= i -> 0 <= seed_of_second start isJst i.
Proof.
  intros Hs Hi.
  unfold seed_of_second, unixtime_of, Js.floor_div, Dayjs.valueOf, Dayjs.add, Dayjs.step.
  cbv zeta. destruct isJst; apply Z.div_pos; lia.
Qed.

Lemma map_flat_map {A B C : Type} (g : B -> C) (f : A -> list B) l :
  map g (flat_map f l) = flat_map (fun x => map g (f x)) l.
Proof.
  induction l as [|x l IH]; cbn [flat_map map]; [reflexivity|].
  rewrite map_app, IH. reflexivity.
Qed.

Lemma filter_flat_map {A B : Type} (p : B -> bool) (f : A -> list B) l :
  filter p (flat_map f l) = flat_map (fun x => filter p (f x)) l.
Proof.
  induction l as [|x l IH]; cbn [flat_map filter]; [reflexivity|].
  rewrite filter_app, IH. reflexivity.
Qed.

Lemma zrange_app i n m : zrange i (n + m) = zrange i n ++ zrange (i + Z.of_nat n) m.
Proof.
  revert i. induction n as [|n IH]; intro i; cbn [zrange Nat.add app].
  - rewrite Z.add_0_r. reflexivity.
  - rewrite IH. do 3 f_equal. lia.
Qed.

Lemma flat_map_zrange_shift {A : Type} (f : Z -> list A) a i n :
  flat_map f (zrange (a + i) n) = flat_map (fun k => f (a + k)) (zrange i n).
Proof.
  revert i. induction n as [|n IH]; intro i; cbn [zrange flat_map]; [reflexivity|].
  replace (a + i + 1) with (a + (i + 1)) by lia. rewrite IH. reflexivity.
Qed.

Lemma pads_to_digits_below_1000 f : 0 <= f < 1000 -> pads_to_digits f = true.
Proof.
  intro Hf.
  assert (Hall : forallb pads_to_digits (zrange 0 1000) = true) by (vm_compute; reflexivity).
  rewrite forallb_forall in Hall. apply Hall. apply zrange_In. lia.
Qed.

(** X2: when the start is not before the epoch and the generator draws
    unsigned 32-bit values, every prediction has a score between 99000 and
    99998 or the score 100000; it is Hundred exactly at 100000, Quadruple
    exactly from 99991 to 99998 and Normal exactly up to 99990. *)
Theorem predict_scores_in_range
  rand_r start timeLimit isJst includeNormal includeQuadruple include100 r :
  unsigned32 rand_r ->
  0 <= start ->
  In r (predictDamPreciseScoringTotalScore rand_r start timeLimit
          isJst includeNormal includeQuadruple include100) ->
  (99000 <= scoreInteger r <= 99998 \/ scoreInteger r = 100000) /\
  (scoreType r = Hundred <-> scoreInteger r = 100000) /\
  (scoreType r = Quadruple <-> 99991 <= scoreInteger r <= 99998) /\
  (scoreType r = Normal <-> scoreInteger r <= 99990).
Proof.
  intros Hu Hstart. rewrite predict_unfold, in_flat_map. intros [i [Hi Hr]].
  apply zrange_In in Hi. rewrite predict_body_record in Hr. cbv zeta in Hr.
  pose proof (deriver_default_range rand_r Hu
                (seed_of_second start (default true isJst) i)
                (seed_of_second_nonneg start (default true isJst) i Hstart ltac:(lia)))
    as Hrange.
  cbv zeta in Hrange.
  destruct (included _ _ _ _); [|destruct Hr].
  destruct Hr as [<- | []]. cbn [scoreInteger scoreType].
  set (score := totalScoreByDamPreciseScoringFromTime rand_r _ None) in *.
  split; [exact Hrange|].
  destruct (classify_cases score) as [[E C] | [[L [N C]] | [L C]]];
    rewrite C; repeat split; intros; try discriminate; try lia.
Qed.

(** X3: under the same conditions the [scoreString] of a prediction is "100"
    or "99", a dot, and the hundreds, tens and units digits of its score:
    the score in thousandths written with exactly three decimals. *)
Theorem predict_scoreString_three_decimals
  rand_r start timeLimit isJst includeNormal includeQuadruple include100 r :
  unsigned32 rand_r ->
  0 <= start ->
  In r (predictDamPreciseScoringTotalScore rand_r start timeLimit
          isJst includeNormal includeQuadruple include100) ->
  scoreString r =
    append (if scoreInteger r =? 100000 then "100" else "99")
      (String "."
         (String (digit (scoreInteger r / 100 mod 10))
            (String (digit (scoreInteger r / 10 mod 10))
               (String (digit (scoreInteger r mod 10)) EmptyString)))).
Proof.
  intros Hu Hstart. rewrite predict_unfold, in_flat_map. intros [i [Hi Hr]].
  apply zrange_In in Hi. rewrite predict_body_record in Hr. cbv zeta in Hr.
  pose proof (deriver_default_range rand_r Hu
                (seed_of_second start (default true isJst) i)
                (seed_of_second_nonneg start (default true isJst) i Hstart ltac:(lia)))
    as Hrange.
  cbv zeta in Hrange.
  destruct (included _ _ _ _); [|destruct Hr].
  destruct Hr as [<- | []]. cbn [scoreInteger scoreString].
  set (score := totalScoreByDamPreciseScoringFromTime rand_r _ None) in *.
  unfold Js.floor_div, Js.rem. rewrite Z.rem_mod_nonneg by lia.
  pose proof (pads_to_digits_below_1000 (score mod 1000)
                (Z.mod_pos_bound score 1000 ltac:(lia))) as Hpad.
  unfold pads_to_digits in Hpad. apply String.eqb_eq in Hpad. rewrite Hpad.
  replace (score mod 1000 / 100) with (score / 100 mod 10)
    by (Z.div_mod_to_equations; lia).
  replace (score mod 1000 / 10 mod 10) with (score / 10 mod 10)
    by (Z.div_mod_to_equations; lia).
  replace (score mod 1000 mod 10) with (score mod 10)
    by (Z.div_mod_to_equations; lia).
  destruct (Z.eqb_spec score 100000) as [E | E].
  - rewrite E. reflexivity.
  - replace (score / 1000) with 99 by (Z.div_mod_to_equations; lia). reflexivity.
Qed.

(** X4: the include-flags only filter: a prediction is the prediction made
    with all three flags true, restricted to the records whose score type
    has its flag true (an omitted flag being true). *)
Theorem predict_flags_filter
  rand_r start timeLimit isJst includeNormal includeQuadruple include100 :
  predictDamPreciseScoringTotalScore rand_r start timeLimit
    isJst includeNormal includeQuadruple include100 =
  filter
    (fun r => included (default true includeNormal) (default true includeQuadruple)
                (default true include100) (scoreType r))
    (predictDamPreciseScoringTotalScore rand_r start timeLimit
       isJst (Some true) (Some true) (Some true)).
Proof.
  rewrite !predict_unfold, filter_flat_map. apply flat_map_ext. intro i.
  rewrite !predict_body_record. cbv zeta. cbn [default included].
  destruct (classify _) eqn:C; cbn [included filter scoreType]; rewrite ?C;
    cbn [included];
    destruct (default true includeNormal), (default true includeQuadruple),
      (default true include100); reflexivity.
Qed.

Lemma predict_body_one_category rand_r start isJst i :
  (List.length (predict_body rand_r start isJst true false false i [])
   + List.length (predict_body rand_r start isJst false true false i [])
   + List.length (predict_body rand_r start isJst false false true i []) = 1)%nat.
Proof.
  rewrite !predict_body_record. cbv zeta.
  destruct (classify _); reflexivity.
Qed.

(** X5: every second of the window falls in exactly one category: for a
    time limit that is not negative, the predictions of the Normal scores
    alone, of the Quadruple scores alone and of the Hundred scores alone
    have [timeLimit] records together. *)
Theorem predict_categories_partition rand_r start timeLimit isJst :
  0 <= timeLimit ->
  Z.of_nat (List.length
              (predictDamPreciseScoringTotalScore rand_r start timeLimit
                 isJst (Some true) (Some false) (Some false)))
  + Z.of_nat (List.length
                (predictDamPreciseScoringTotalScore rand_r start timeLimit
                   isJst (Some false) (Some true) (Some false)))
  + Z.of_nat (List.length
                (predictDamPreciseScoringTotalScore rand_r start timeLimit
                   isJst (Some false) (Some false) (Some true)))
  = timeLimit.
Proof.
  intro Hd. rewrite !predict_unfold. cbn [default].
  rewrite <- (Z2Nat.id timeLimit Hd) at 4.
  generalize 0. induction (Z.to_nat timeLimit) as [|n IH]; intro i;
    cbn [zrange flat_map]; [reflexivity|].
  rewrite !length_app. specialize (IH (i + 1)).
  pose proof (predict_body_one_category rand_r start (default true isJst) i).
  lia.
Qed.

(** X6: predicting a window of [a + b] seconds is predicting its first [a]
    seconds and then the [b] seconds that start [a] seconds later. *)
Theorem predict_window_concat
  rand_r start a b isJst includeNormal includeQuadruple include100 :
  0 <= a -> 0 <= b ->
  predictDamPreciseScoringTotalScore rand_r start (a + b)
    isJst includeNormal includeQuadruple include100 =
  predictDamPreciseScoringTotalScore rand_r start a
    isJst includeNormal includeQuadruple include100
  ++ predictDamPreciseScoringTotalScore rand_r (Dayjs.add start a Dayjs.second) b
       isJst includeNormal includeQuadruple include100.
Proof.
  intros Ha Hb. rewrite !predict_unfold.
  rewrite Z2Nat.inj_add, zrange_app, flat_map_app, Z2Nat.id by assumption.
  f_equal.
  replace (0 + a) with (a + 0) by lia. rewrite flat_map_zrange_shift.
  apply flat_map_ext. intro k. unfold predict_body. cbv zeta.
  replace (Dayjs.add (Dayjs.add start a Dayjs.second) k Dayjs.second)
    with (Dayjs.add start (a + k) Dayjs.second)
    by (unfold Dayjs.add, Dayjs.step; lia).
  reflexivity.
Qed.

(** X7: seeding with the JST shift is predicting, with UTC seeds, the
    window that starts nine hours later: the records are the same but for
    their [time], which stays nine hours earlier. *)
Theorem predict_jst_is_utc_nine_hours_later
  rand_r start timeLimit includeNormal includeQuadruple include100 :
  map (shift_time (9 * 3600000))
    (predictDamPreciseScoringTotalScore rand_r start timeLimit
       (Some true) includeNormal includeQuadruple include100) =
  predictDamPreciseScoringTotalScore rand_r (Dayjs.add start 9 Dayjs.hour) timeLimit
    (Some false) includeNormal includeQuadruple include100.
Proof.
  rewrite !predict_unfold, map_flat_map. apply flat_map_ext. intro i.
  rewrite !predict_body_record. cbv zeta. cbn [default]. unfold seed_of_second.
  cbv zeta.
  replace (Dayjs.add (Dayjs.add start 9 Dayjs.hour) i Dayjs.second)
    with (Dayjs.add (Dayjs.add start i Dayjs.second) 9 Dayjs.hour)
    by (unfold Dayjs.add, Dayjs.step; lia).
  destruct (included _ _ _ _); [|reflexivity].
  cbn [map]. unfold shift_time. cbn [time scoreInteger scoreString scoreType].
  f_equal.
Qed.

Lemma floor_whole_second start x :
  (start - start mod 1000 + x * 1000) / 1000 = (start + x * 1000) / 1000.
Proof.
  rewrite !Z.div_add by lia. f_equal.
  pose proof (Z.div_mod start 1000 ltac:(lia)) as H.
  replace (start - start mod 1000) with (start / 1000 * 1000) by lia.
  apply Z.div_mul. lia.
Qed.

(** X8: the milliseconds of the start instant reach the [time] of the
    records and nothing else: the prediction from [start] is the prediction
    from the whole second of [start] with the milliseconds added back. *)
Theorem predict_ignores_milliseconds
  rand_r start timeLimit isJst includeNormal includeQuadruple include100 :
  predictDamPreciseScoringTotalScore rand_r start timeLimit
    isJst includeNormal includeQuadruple include100 =
  map (shift_time (start mod 1000))
    (predictDamPreciseScoringTotalScore rand_r (start - start mod 1000) timeLimit
       isJst includeNormal includeQuadruple include100).
Proof.
  rewrite !predict_unfold, map_flat_map. apply flat_map_ext. intro i.
  rewrite !predict_body_record. cbv zeta.
  assert (Hseed : seed_of_second (start - start mod 1000) (default true isJst) i =
                  seed_of_second start (default true isJst) i).
  { unfold seed_of_second, unixtime_of, Js.floor_div, Dayjs.valueOf, Dayjs.add, Dayjs.step.
    cbv zeta. destruct (default true isJst).
    - replace (start - start mod 1000 + i * 1000 + 9 * 3600000)
        with (start - start mod 1000 + (i + 32400) * 1000) by lia.
      replace (start + i * 1000 + 9 * 3600000) with (start + (i + 32400) * 1000) by lia.
      apply floor_whole_second.
    - apply floor_whole_second. }
  rewrite Hseed.
  destruct (included _ _ _ _); [|reflexivity].
  cbn [map]. unfold shift_time. cbn [time scoreInteger scoreString scoreType].
  do 2 f_equal. unfold Dayjs.add, Dayjs.step. lia.
Qed.

(** ** The counting engine *)

Lemma hit_bounds rand_r seed_of start k :
  0 <= hit rand_r seed_of Hundred start k /\
  0 <= hit rand_r seed_of Quadruple start k /\
  hit rand_r seed_of Hundred start k + hit rand_r seed_of Quadruple start k <= 1.
Proof. unfold hit. destruct (classify _); cbn; lia. Qed.

Lemma zsum_hit_bounds rand_r seed_of start i n :
  0 <= zsum (hit rand_r seed_of Hundred start) i n /\
  0 <= zsum (hit rand_r seed_of Quadruple start) i n /\
  zsum (hit rand_r seed_of Hundred start) i n
    + zsum (hit rand_r seed_of Quadruple start) i n <= Z.of_nat n.
Proof.
  revert i. induction n as [|n IH]; intro i; cbn [zsum]; [lia|].
  specialize (IH (i + 1)). pose proof (hit_bounds rand_r seed_of start i). lia.
Qed.

(** The seconds of one score type that a prediction keeps are the hits of
    that type. *)
Lemma predict_only_length rand_r start isJst ty i n :
  Z.of_nat
    (List.length
       (flat_map
          (fun k =>
             predict_body rand_r start isJst
               (DamPreciseScoringTotalScoreType_eqb Normal ty)
               (DamPreciseScoringTotalScoreType_eqb Quadruple ty)
               (DamPreciseScoringTotalScoreType_eqb Hundred ty) k [])
          (zrange i n))) =
  zsum (hit rand_r (if isJst then seed_jst else seed_utc) ty start) i n.
Proof.
  revert i. induction n as [|n IH]; intro i; cbn [zrange flat_map zsum]; [reflexivity|].
  rewrite length_app, Nat2Z.inj_add, IH. f_equal.
  rewrite predict_body_record. cbv zeta. unfold hit.
  replace (seed_of_second start isJst i)
    with ((if isJst then seed_jst else seed_utc) (Dayjs.add start i Dayjs.second))
    by (unfold seed_of_second, seed_jst, seed_utc; destruct isJst; reflexivity).
  destruct (classify _), ty; reflexivity.
Qed.

(** X9: counting agrees with predicting: on a valid window the hundred
    counts of the spans add up to the number of Hundred predictions of the
    window and the quadruple counts to the number of Quadruple predictions,
    the [utc] counts for UTC seeds and the [jst] counts for JST seeds. *)
Theorem count_agrees_with_predict rand_r fuel start timeSpan timeLimit :
  0 < timeSpan -> 0 < timeLimit -> (Z.to_nat timeLimit < fuel)%nat ->
  exists result,
    countDamPreciseScoringTotalScorePrediction rand_r fuel start timeSpan timeLimit =
      Some result /\
    sum_list (map (fun r => hundredCount (utc r)) result) =
      Z.of_nat (List.length
                  (predictDamPreciseScoringTotalScore rand_r start timeLimit
                     (Some false) (Some false) (Some false) (Some true))) /\
    sum_list (map (fun r => quadrupleCount (utc r)) result) =
      Z.of_nat (List.length
                  (predictDamPreciseScoringTotalScore rand_r start timeLimit
                     (Some false) (Some false) (Some true) (Some false))) /\
    sum_list (map (fun r => hundredCount (jst r)) result) =
      Z.of_nat (List.length
                  (predictDamPreciseScoringTotalScore rand_r start timeLimit
                     (Some true) (Some false) (Some false) (Some true))) /\
    sum_list (map (fun r => quadrupleCount (jst r)) result) =
      Z.of_nat (List.length
                  (predictDamPreciseScoringTotalScore rand_r start timeLimit
                     (Some true) (Some false) (Some true) (Some false))).
Proof.
  intros Hs Hd Hfuel.
  destruct (count_valid rand_r fuel start timeSpan timeLimit Hs Hd Hfuel)
    as [n [Hn [_ [Hr [Hl Hc]]]]].
  eexists. split; [exact Hc|].
  rewrite !predict_unfold. cbn [default].
  rewrite (predict_only_length rand_r start false Hundred),
    (predict_only_length rand_r start false Quadruple),
    (predict_only_length rand_r start true Hundred),
    (predict_only_length rand_r start true Quadruple).
  rewrite !map_map. unfold span_record. cbv zeta. cbn [utc jst hundredCount quadrupleCount].
  assert (Hrem : 0 <= Z.rem timeLimit timeSpan)
    by (rewrite Hr; apply Z.mod_pos_bound; exact Hs).
  repeat split; apply spans_sum; assumption.
Qed.

(** X10: on a valid window the first span starts at the start, the last
    span ends [timeLimit] seconds after it, and in every record, for UTC and
    for JST seeds alike, the two counts are not negative and together count
    at most the seconds of the span. *)
Theorem count_covers_window rand_r fuel start timeSpan timeLimit :
  0 < timeSpan -> 0 < timeLimit -> (Z.to_nat timeLimit < fuel)%nat ->
  exists result,
    countDamPreciseScoringTotalScorePrediction rand_r fuel start timeSpan timeLimit =
      Some result /\
    (exists first, nth_error result 0 = Some first /\ startTime first = start) /\
    (exists last,
        nth_error result (List.length result - 1) = Some last /\
        endTime last = Dayjs.add start timeLimit Dayjs.second) /\
    Forall (fun r =>
              0 <= hundredCount (utc r) /\ 0 <= quadrupleCount (utc r) /\
              1000 * (hundredCount (utc r) + quadrupleCount (utc r))
                <= endTime r - startTime r /\
              0 <= hundredCount (jst r) /\ 0 <= quadrupleCount (jst r) /\
              1000 * (hundredCount (jst r) + quadrupleCount (jst r))
                <= endTime r - startTime r)
      result.
Proof.
  intros Hs Hd Hfuel.
  destruct (count_valid rand_r fuel start timeSpan timeLimit Hs Hd Hfuel)
    as [n [Hn [_ [Hr [Hl Hc]]]]].
  assert (Hrem : 0 <= Z.rem timeLimit timeSpan)
    by (rewrite Hr; apply Z.mod_pos_bound; exact Hs).
  eexists. split; [exact Hc|].
  rewrite length_map, zrange_length.
  replace (Z.to_nat n) with (S (Z.to_nat (n - 1))) by lia.
  split; [|split].
  - eexists. split; [cbn [zrange map nth_error]; reflexivity|].
    unfold span_record. cbv zeta. cbn [startTime]. unfold Dayjs.add, Dayjs.step. lia.
  - eexists. split.
    + rewrite zrange_snoc, map_app. cbn [map].
      rewrite nth_error_app2 by (rewrite length_map, zrange_length; lia).
      rewrite length_map, zrange_length.
      replace (S (Z.to_nat (n - 1)) - 1 - Z.to_nat (n - 1))%nat with O by lia.
      reflexivity.
    + unfold span_record. cbv zeta. cbn [endTime]. rewrite localTimeSpan_Fin.
      replace (0 + Z.of_nat (Z.to_nat (n - 1))) with (n - 1) by lia.
      rewrite Z.eqb_refl. cbn [andb]. unfold Dayjs.add, Dayjs.step.
      destruct (Js.truthy _); lia.
  - apply Forall_forall. intros r Hin. apply in_map_iff in Hin.
    destruct Hin as [i [<- Hi]]. apply zrange_In in Hi.
    unfold span_record. cbv zeta.
    cbn [startTime endTime utc jst hundredCount quadrupleCount].
    set (len := localTimeSpan (Js.Fin n) timeSpan timeLimit i).
    assert (Hlen : 0 <= len).
    { subst len. rewrite localTimeSpan_Fin. destruct (_ && _); lia. }
    pose proof (zsum_hit_bounds rand_r seed_utc start (i * timeSpan) (Z.to_nat len)).
    pose proof (zsum_hit_bounds rand_r seed_jst start (i * timeSpan) (Z.to_nat len)).
    unfold Dayjs.add, Dayjs.step. lia.
Qed.

(** X12: a window with a negative span and a time limit that is not
    negative, or with the span zero and a time limit that is not positive,
    gives no span at all: the method returns an empty array. *)
Theorem count_degenerate_window_empty rand_r fuel start timeSpan timeLimit :
  (timeSpan < 0 /\ 0 <= timeLimit) \/ (timeSpan = 0 /\ timeLimit <= 0) ->
  (0 < fuel)%nat ->
  countDamPreciseScoringTotalScorePrediction rand_r fuel start timeSpan timeLimit =
    Some [].
Proof.
  intros Hcase Hfuel. destruct fuel as [|fuel]; [lia|].
  unfold countDamPreciseScoringTotalScorePrediction, Js.ceil_div. cbv zeta.
  destruct Hcase as [[Hs Hd] | [-> Hd]].
  - replace (timeSpan =? 0) with false by (symmetry; apply Z.eqb_neq; lia).
    cbn [for_number Js.lt].
    replace (0 <? - (- timeLimit / timeSpan)) with false; [reflexivity|].
    symmetry. apply Z.ltb_ge. Z.div_mod_to_equations. nia.
  - cbn [Z.eqb].
    replace (0 <? timeLimit) with false by (symmetry; apply Z.ltb_ge; exact Hd).
    destruct (timeLimit <? 0); reflexivity.
Qed.

(** X13: with a negative span and a negative time limit the method returns
    at least one record, and in every record all four counts are zero and
    the end lies before the start: no second is derived. *)
Theorem count_negative_window_backwards rand_r fuel start timeSpan timeLimit :
  timeSpan < 0 -> timeLimit < 0 -> (Z.to_nat (- timeLimit) < fuel)%nat ->
  exists result,
    countDamPreciseScoringTotalScorePrediction rand_r fuel start timeSpan timeLimit =
      Some result /\
    (1 <= List.length result)%nat /\
    Forall (fun r =>
              utc r = mkCounts 0 0 /\ jst r = mkCounts 0 0 /\ endTime r < startTime r)
      result.
Proof.
  intros Hs Hd Hfuel.
  assert (Hn : 1 <= - (- timeLimit / timeSpan) <= - timeLimit)
    by (Z.div_mod_to_equations; nia).
  unfold countDamPreciseScoringTotalScorePrediction, Js.ceil_div. cbv zeta.
  replace (timeSpan =? 0) with false by (symmetry; apply Z.eqb_neq; lia).
  set (n := - (- timeLimit / timeSpan)) in *.
  rewrite for_number_Fin by lia. rewrite count_iterate, Z.sub_0_r. cbn [app].
  eexists. split; [reflexivity|].
  rewrite length_map, zrange_length. split; [lia|].
  apply Forall_forall. intros r Hin. apply in_map_iff in Hin.
  destruct Hin as [i [<- _]].
  unfold span_record. cbv zeta. cbn [startTime endTime utc jst].
  set (len := localTimeSpan (Js.Fin n) timeSpan timeLimit i).
  assert (Hlen : len < 0).
  { subst len. rewrite localTimeSpan_Fin. unfold Js.truthy.
    pose proof (Z.rem_nonpos timeLimit timeSpan ltac:(lia) ltac:(lia)).
    destruct (i =? n - 1); cbn [andb]; [|lia].
    destruct (Z.eqb_spec (Z.rem timeLimit timeSpan) 0); cbn [negb]; lia. }
  replace (Z.to_nat len) with O by lia. cbn [zsum].
  repeat split. unfold Dayjs.add, Dayjs.step. lia.
Qed.

Lemma span_record_jst_shift rand_r start timeSpans timeSpan timeLimit i :
  jst (span_record rand_r start timeSpans timeSpan timeLimit i) =
    utc (span_record rand_r (Dayjs.add start 9 Dayjs.hour) timeSpans timeSpan timeLimit i).
Proof.
  unfold span_record. cbv zeta. cbn [utc jst].
  assert (H : forall ty k,
    hit rand_r seed_jst ty start k =
      hit rand_r seed_utc ty (Dayjs.add start 9 Dayjs.hour) k).
  { intros ty k. unfold hit, seed_jst, seed_utc.
    replace (Dayjs.add (Dayjs.add start 9 Dayjs.hour) k Dayjs.second)
      with (Dayjs.add (Dayjs.add start k Dayjs.second) 9 Dayjs.hour)
      by (unfold Dayjs.add, Dayjs.step; lia).
    reflexivity. }
  f_equal; apply zsum_ext; intros; apply H.
Qed.

Lemma for_number_count_shift rand_r start timeSpans timeSpan timeLimit fuel i res res' :
  map jst res = map utc res' ->
  option_map (map jst)
    (for_number fuel i timeSpans
       (count_body rand_r start timeSpans timeSpan timeLimit) res) =
  option_map (map utc)
    (for_number fuel i timeSpans
       (count_body rand_r (Dayjs.add start 9 Dayjs.hour) timeSpans timeSpan timeLimit)
       res').
Proof.
  revert i res res'. induction fuel as [|fuel IH]; intros i res res' H;
    cbn [for_number option_map]; [reflexivity|].
  destruct (Js.lt i timeSpans); cbn [option_map]; [|rewrite H; reflexivity].
  apply IH. rewrite !count_body_push, !map_app, H. cbn [map].
  rewrite span_record_jst_shift. reflexivity.
Qed.

(** X14: the [jst] counts of a window are the [utc] counts of the window
    that starts nine hours later, span by span, whatever the arguments. *)
Theorem count_jst_is_utc_nine_hours_later rand_r fuel start timeSpan timeLimit :
  option_map (map jst)
    (countDamPreciseScoringTotalScorePrediction rand_r fuel start timeSpan timeLimit) =
  option_map (map utc)
    (countDamPreciseScoringTotalScorePrediction rand_r fuel
       (Dayjs.add start 9 Dayjs.hour) timeSpan timeLimit).
Proof.
  unfold countDamPreciseScoringTotalScorePrediction. cbv zeta.
  apply for_number_count_shift. reflexivity.
Qed.


(** ** Concrete runs for the further properties *)

Lemma predict_scores_in_range_witness :
  unsigned32 reference_rand_r /\ 0 <= 1640995200000 /\
  In (mkPrediction 1640995201000 99811 "99.811" Normal)
     (predictDamPreciseScoringTotalScore reference_rand_r 1640995200000 2
        None None None None) /\
  (99000 <= 99811 <= 99998 \/ 99811 = 100000) /\
  (Normal = Hundred <-> 99811 = 100000) /\
  (Normal = Quadruple <-> 99991 <= 99811 <= 99998) /\
  (Normal = Normal <-> 99811 <= 99990).
Proof.
  split; [exact reference_rand_r_unsigned32 | split; [lia | split]].
  - vm_compute. right; left; reflexivity.
  - apply (predict_scores_in_range reference_rand_r 1640995200000 2 None None None None
             (mkPrediction 1640995201000 99811 "99.811" Normal)
             reference_rand_r_unsigned32); [lia|].
    vm_compute. right; left; reflexivity.
Defined.

Lemma predict_scoreString_three_decimals_witness :
  unsigned32 reference_rand_r /\ 0 <= 1640995200000 /\
  In (mkPrediction 1640995201000 99811 "99.811" Normal)
     (predictDamPreciseScoringTotalScore reference_rand_r 1640995200000 2
        None None None None) /\
  "99.811"%string =
    append (if 99811 =? 100000 then "100" else "99")
      (String "."
         (String (digit (99811 / 100 mod 10))
            (String (digit (99811 / 10 mod 10))
               (String (digit (99811 mod 10)) EmptyString)))).
Proof.
  split; [exact reference_rand_r_unsigned32 | split; [lia | split]].
  - vm_compute. right; left; reflexivity.
  - apply (predict_scoreString_three_decimals reference_rand_r 1640995200000 2
             None None None None
             (mkPrediction 1640995201000 99811 "99.811" Normal)
             reference_rand_r_unsigned32); [lia|].
    vm_compute. right; left; reflexivity.
Defined.

Lemma predict_categories_partition_witness :
  0 <= 400 /\
  Z.of_nat (List.length
              (predictDamPreciseScoringTotalScore reference_rand_r 1640995200000 400
                 None (Some true) (Some false) (Some false)))
  + Z.of_nat (List.length
                (predictDamPreciseScoringTotalScore reference_rand_r 1640995200000 400
                   None (Some false) (Some true) (Some false)))
  + Z.of_nat (List.length
                (predictDamPreciseScoringTotalScore reference_rand_r 1640995200000 400
                   None (Some false) (Some false) (Some true)))
  = 400.
Proof.
  split; [lia|].
  apply (predict_categories_partition reference_rand_r 1640995200000 400 None). lia.
Defined.

Lemma predict_window_concat_witness :
  0 <= 2 /\ 0 <= 3 /\
  predictDamPreciseScoringTotalScore reference_rand_r 1640995200000 (2 + 3)
    None None None None =
  predictDamPreciseScoringTotalScore reference_rand_r 1640995200000 2
    None None None None
  ++ predictDamPreciseScoringTotalScore reference_rand_r
       (Dayjs.add 1640995200000 2 Dayjs.second) 3 None None None None.
Proof.
  split; [lia | split; [lia|]].
  apply (predict_window_concat reference_rand_r 1640995200000 2 3 None None None None);
    lia.
Defined.

Lemma count_agrees_with_predict_witness :
  0 < 1000 /\ 0 < 2500 /\ (Z.to_nat 2500 < 2501)%nat /\
  exists result,
    countDamPreciseScoringTotalScorePrediction reference_rand_r 2501 1640995200000
      1000 2500 = Some result /\
    sum_list (map (fun r => hundredCount (utc r)) result) =
      Z.of_nat (List.length
                  (predictDamPreciseScoringTotalScore reference_rand_r 1640995200000 2500
                     (Some false) (Some false) (Some false) (Some true))) /\
    sum_list (map (fun r => quadrupleCount (utc r)) result) =
      Z.of_nat (List.length
                  (predictDamPreciseScoringTotalScore reference_rand_r 1640995200000 2500
                     (Some false) (Some false) (Some true) (Some false))) /\
    sum_list (map (fun r => hundredCount (jst r)) result) =
      Z.of_nat (List.length
                  (predictDamPreciseScoringTotalScore reference_rand_r 1640995200000 2500
                     (Some true) (Some false) (Some false) (Some true))) /\
    sum_list (map (fun r => quadrupleCount (jst r)) result) =
      Z.of_nat (List.length
                  (predictDamPreciseScoringTotalScore reference_rand_r 1640995200000 2500
                     (Some true) (Some false) (Some true) (Some false))).
Proof.
  split; [lia | split; [lia | split; [lia|]]].
  apply (count_agrees_with_predict reference_rand_r 2501 1640995200000 1000 2500); lia.
Defined.

Lemma count_covers_window_witness :
  0 < 10 /\ 0 < 25 /\ (Z.to_nat 25 < 26)%nat /\
  exists result,
    countDamPreciseScoringTotalScorePrediction reference_rand_r 26 1640995200000 10 25 =
      Some result /\
    (exists first, nth_error result 0 = Some first /\ startTime first = 1640995200000) /\
    (exists last,
        nth_error result (List.length result - 1) = Some last /\
        endTime last = Dayjs.add 1640995200000 25 Dayjs.second) /\
    Forall (fun r =>
              0 <= hundredCount (utc r) /\ 0 <= quadrupleCount (utc r) /\
              1000 * (hundredCount (utc r) + quadrupleCount (utc r))
                <= endTime r - startTime r /\
              0 <= hundredCount (jst r) /\ 0 <= quadrupleCount (jst r) /\
              1000 * (hundredCount (jst r) + quadrupleCount (jst r))
                <= endTime r - startTime r)
      result.
Proof.
  split; [lia | split; [lia | split; [lia|]]].
  apply (count_covers_window reference_rand_r 26 1640995200000 10 25); lia.
Defined.

Lemma count_zero_span_never_returns_witness :
  0 < 5 /\
  countDamPreciseScoringTotalScorePrediction reference_rand_r 1000 1640995200000 0 5 =
    None.
Proof.
  split; [lia|].
  apply (count_zero_span_never_returns reference_rand_r 1000 1640995200000 5). lia.
Defined.

Lemma count_degenerate_window_empty_witness :
  ((-10 < 0 /\ 0 <= 25) \/ (-10 = 0 /\ 25 <= 0)) /\ (0 < 1)%nat /\
  countDamPreciseScoringTotalScorePrediction reference_rand_r 1 1640995200000 (-10) 25 =
    Some [].
Proof.
  split; [left; lia | split; [lia|]].
  apply (count_degenerate_window_empty reference_rand_r 1 1640995200000 (-10) 25);
    [left; lia | lia].
Defined.

Lemma count_negative_window_backwards_witness :
  -10 < 0 /\ -25 < 0 /\ (Z.to_nat (- -25) < 26)%nat /\
  exists result,
    countDamPreciseScoringTotalScorePrediction reference_rand_r 26 1640995200000
      (-10) (-25) = Some result /\
    (1 <= List.length result)%nat /\
    Forall (fun r =>
              utc r = mkCounts 0 0 /\ jst r = mkCounts 0 0 /\ endTime r < startTime r)
      result.
Proof.
  split; [lia | split; [lia | split; [lia|]]].
  apply (count_negative_window_backwards reference_rand_r 26 1640995200000 (-10) (-25));
    lia.
Defined.

(** ** Negative sums and single spans *)

(** X15: when the sum of the drawn value and the seed is negative, as for a
    seed far before the epoch, the remainder takes its sign: for a raw
    score above 99000 the derived score is at most 99000, above
    [2 * 99000 - rawScore], and never 100000. *)
Theorem deriver_negative_sum_at_most_threshold rand_r time rawScore :
  randomValue rand_r time < 0 ->
  99000 < rawScore ->
  2 * 99000 - rawScore <
    totalScoreByDamPreciseScoringFromTime rand_r time (Some rawScore) <= 99000.
Proof.
  intros Hneg Hraw. rewrite deriver_above by exact Hraw. cbv zeta.
  pose proof (Z.rem_bound_pos_neg (randomValue rand_r time) (rawScore - 99000)
                ltac:(lia) ltac:(lia)) as Hb.
  replace (99990 <? Z.rem (randomValue rand_r time) (rawScore - 99000) + 99000)
    with false by (symmetry; apply Z.ltb_ge; lia).
  cbn [andb]. lia.
Qed.

Lemma deriver_negative_sum_at_most_threshold_witness :
  randomValue reference_rand_r (-5000000000) < 0 /\ 99000 < 99999 /\
  2 * 99000 - 99999 <
    totalScoreByDamPreciseScoringFromTime reference_rand_r (-5000000000) (Some 99999)
    <= 99000.
Proof.
  split; [vm_compute; reflexivity | split; [lia|]].
  apply (deriver_negative_sum_at_most_threshold reference_rand_r (-5000000000) 99999);
    [vm_compute; reflexivity | lia].
Defined.

(** X16: on a valid window every record agrees with the prediction of its
    own span: its hundred and quadruple counts are the numbers of Hundred
    and of Quadruple predictions from its [startTime] over the seconds up to
    its [endTime], with UTC seeds for [utc] and JST seeds for [jst]. *)
Theorem count_record_agrees_with_predict rand_r fuel start timeSpan timeLimit :
  0 < timeSpan -> 0 < timeLimit -> (Z.to_nat timeLimit < fuel)%nat ->
  exists result,
    countDamPreciseScoringTotalScorePrediction rand_r fuel start timeSpan timeLimit =
      Some result /\
    Forall (fun r =>
              let len := (endTime r - startTime r) / 1000 in
              hundredCount (utc r) =
                Z.of_nat (List.length
                            (predictDamPreciseScoringTotalScore rand_r (startTime r) len
                               (Some false) (Some false) (Some false) (Some true))) /\
              quadrupleCount (utc r) =
                Z.of_nat (List.length
                            (predictDamPreciseScoringTotalScore rand_r (startTime r) len
                               (Some false) (Some false) (Some true) (Some false))) /\
              hundredCount (jst r) =
                Z.of_nat (List.length
                            (predictDamPreciseScoringTotalScore rand_r (startTime r) len
                               (Some true) (Some false) (Some false) (Some true))) /\
              quadrupleCount (jst r) =
                Z.of_nat (List.length
                            (predictDamPreciseScoringTotalScore rand_r (startTime r) len
                               (Some true) (Some false) (Some true) (Some false))))
      result.
Proof.
  intros Hs Hd Hfuel.
  destruct (count_valid rand_r fuel start timeSpan timeLimit Hs Hd Hfuel)
    as [n [Hn [_ [Hr [Hl Hc]]]]].
  eexists. split; [exact Hc|].
  apply Forall_forall. intros r Hin. apply in_map_iff in Hin.
  destruct Hin as [i [<- _]]. cbv zeta.
  unfold span_record. cbv zeta.
  cbn [startTime endTime utc jst hundredCount quadrupleCount].
  set (len := localTimeSpan (Js.Fin n) timeSpan timeLimit i).
  replace ((Dayjs.add (Dayjs.add start (i * timeSpan) Dayjs.second) len Dayjs.second
            - Dayjs.add start (i * timeSpan) Dayjs.second) / 1000)
    with len
    by (unfold Dayjs.add, Dayjs.step;
        replace (start + i * timeSpan * 1000 + len * 1000 - (start + i * timeSpan * 1000))
          with (len * 1000) by lia;
        symmetry; apply Z.div_mul; lia).
  rewrite !predict_unfold. cbn [default].
  rewrite (predict_only_length rand_r _ false Hundred),
    (predict_only_length rand_r _ false Quadruple),
    (predict_only_length rand_r _ true Hundred),
    (predict_only_length rand_r _ true Quadruple).
  rewrite !zsum_hit_shift. repeat split.
Qed.

Lemma count_record_agrees_with_predict_witness :
  0 < 1000 /\ 0 < 2500 /\ (Z.to_nat 2500 < 2501)%nat /\
  exists result,
    countDamPreciseScoringTotalScorePrediction reference_rand_r 2501 1640995200000
      1000 2500 = Some result /\
    Forall (fun r =>
              let len := (endTime r - startTime r) / 1000 in
              hundredCount (utc r) =
                Z.of_nat (List.length
                            (predictDamPreciseScoringTotalScore reference_rand_r
                               (startTime r) len
                               (Some false) (Some false) (Some false) (Some true))) /\
              quadrupleCount (utc r) =
                Z.of_nat (List.length
                            (predictDamPreciseScoringTotalScore reference_rand_r
                               (startTime r) len
                               (Some false) (Some false) (Some true) (Some false))) /\
              hundredCount (jst r) =
                Z.of_nat (List.length
                            (predictDamPreciseScoringTotalScore reference_rand_r
                               (startTime r) len
                               (Some true) (Some false) (Some false) (Some true))) /\
              quadrupleCount (jst r) =
                Z.of_nat (List.length
                            (predictDamPreciseScoringTotalScore reference_rand_r
                               (startTime r) len
                               (Some true) (Some false) (Some true) (Some false))))
      result.
Proof.
  split; [lia | split; [lia | split; [lia|]]].
  apply (count_record_agrees_with_predict reference_rand_r 2501 1640995200000 1000 2500);
    lia.
Defined.
